(** * smartfilecmd: the C++ backend (src/cpp_backend), embedded in Rocq

    The development follows the two namespaces of the backend:

    - [utils]   (utils.cpp): directory safety, directory scans, the pattern
      matcher and path expansion;
    - [actions] (actions.cpp): command validation, the four operation
      handlers and the dispatcher.

    [std::string] is a byte string ([string]); [std::filesystem::path] is
    its pathname in the POSIX generic format (separator [/], no root
    names).  The operating system is an interface ([OS]) whose operations
    either return or throw; the handlers thread the state of the file
    system through their calls. *)

From Stdlib Require Import Bool Arith ZArith Lia List Ascii String.
From Stdlib Require Import DecimalString.
Import ListNotations.

Local Open Scope string_scope.
Local Open Scope bool_scope.

(** ** Byte strings: the [std::string] members the backend calls *)

Module Str.

(** [s.find(c) != npos] for a character. *)
Fixpoint contains_char (c : ascii) (s : string) : bool :=
  match s with
  | EmptyString => false
  | String d s' => Ascii.eqb d c || contains_char c s'
  end.

(** [s.find(t)], the first position of [t] in [s]; [None] is [npos]. *)
Definition find (s t : string) : option nat := String.index 0 t s.

(** [s.find(t) == 0] *)
Definition find_is_0 (s t : string) : bool :=
  match find s t with
  | Some 0 => true
  | _ => false
  end.

(** [s.find(t) != npos] *)
Definition find_is_not_npos (s t : string) : bool :=
  match find s t with
  | Some _ => true
  | None => false
  end.

(** [s.starts_with(t)] *)
Definition starts_with (s t : string) : bool := String.prefix t s.

(** [s.ends_with(t)]: [size() >= t.size()] and the last [t.size()]
    characters compare equal to [t]. *)
Definition ends_with (s t : string) : bool :=
  (String.length t <=? String.length s)%nat
  && String.eqb (substring (String.length s - String.length t) (String.length t) s) t.

(** [s.substr(n)] *)
Definition substr_from (n : nat) (s : string) : string :=
  substring n (String.length s - n) s.

(** [std::tolower] in the "C" locale. *)
Definition tolower (c : ascii) : ascii :=
  let n := nat_of_ascii c in
  if (65 <=? n)%nat && (n <=? 90)%nat then ascii_of_nat (n + 32) else c.

Fixpoint lower (s : string) : string :=
  match s with
  | EmptyString => EmptyString
  | String c s' => String (tolower c) (lower s')
  end.

(** [std::to_string] of an integer. *)
Definition to_string (n : Z) : string := NilZero.string_of_int (Z.to_int n).

End Str.

(** ** [std::regex], for the expressions the glob translation emits

    [matches_glob_pattern] builds an ECMAScript expression and hands it to
    [std::regex re(escaped, std::regex::icase)] and [std::regex_match].
    The expressions it can build are sequences of: an ordinary character,
    an identity escape [\c] of a syntax character, [.], each optionally
    followed by [*].  [regex_compile] accepts this fragment; anything else
    is reported as [None], which stands for [std::regex_error].  A
    library may also refuse an expression for its size (libstdc++ throws
    [regex_error] with [error_space] above 100000 states); that limit is
    not modelled: [regex_compile] stands for the library on expressions
    within it. *)

Module Regex.

Inductive atom : Type :=
| Chr (c : ascii)    (* one character, compared without regard to case *)
| Dot.               (* [.]: any character but a line terminator *)

Inductive piece : Type :=
| One (a : atom)
| Star (a : atom).

Definition regex := list piece.

Inductive token : Type :=
| TAtom (a : atom)
| TStar.

(** The characters [matches_glob_pattern] escapes:
    [std::string("()[]{}.+^$|\\").find(c) != npos]. *)
Definition escaped_set : string := "()[]{}.+^$|\".

Definition is_escaped (c : ascii) : bool := Str.contains_char c escaped_set.

(** ECMAScript's SyntaxCharacter: [^ $ \ . * + ? ( ) [ ] { } |]. *)
Definition is_syntax_character (c : ascii) : bool :=
  is_escaped c || Ascii.eqb c "*" || Ascii.eqb c "?".

Fixpoint lex (s : string) : option (list token) :=
  match s with
  | EmptyString => Some []
  | String c rest =>
      if Ascii.eqb c "\" then
        match rest with
        | EmptyString => None
        | String e rest' =>
            if is_syntax_character e
            then option_map (cons (TAtom (Chr e))) (lex rest')
            else None
        end
      else if Ascii.eqb c "." then option_map (cons (TAtom Dot)) (lex rest)
      else if Ascii.eqb c "*" then option_map (cons TStar) (lex rest)
      else if is_syntax_character c then None
      else option_map (cons (TAtom (Chr c))) (lex rest)
  end.

Fixpoint parse (ts : list token) : option regex :=
  match ts with
  | [] => Some []
  | TStar :: _ => None
  | TAtom a :: ts' =>
      match ts' with
      | TStar :: ts'' => option_map (cons (Star a)) (parse ts'')
      | _ => option_map (cons (One a)) (parse ts')
      end
  end.

(** [std::regex re(s, std::regex::icase)] *)
Definition regex_compile (s : string) : option regex :=
  match lex s with
  | Some ts => parse ts
  | None => None
  end.

Definition is_line_terminator (c : ascii) : bool :=
  Ascii.eqb c "010" || Ascii.eqb c "013".

(** One character against one atom under [icase]: both sides go through
    [tolower]. *)
Definition atom_matches (a : atom) (c : ascii) : bool :=
  match a with
  | Chr p => Ascii.eqb (Str.tolower p) (Str.tolower c)
  | Dot => negb (is_line_terminator c)
  end.

(** [a*] followed by the continuation [k]: zero or more characters. *)
Fixpoint star_match (a : atom) (k : string -> bool) (s : string) : bool :=
  k s ||
  match s with
  | EmptyString => false
  | String c s' => atom_matches a c && star_match a k s'
  end.

(** [std::regex_match(s, re)]: the whole of [s] must match. *)
Fixpoint regex_match (re : regex) (s : string) : bool :=
  match re with
  | [] => match s with EmptyString => true | _ => false end
  | One a :: re' =>
      match s with
      | EmptyString => false
      | String c s' => atom_matches a c && regex_match re' s'
      end
  | Star a :: re' => star_match a (regex_match re') s
  end.

End Regex.

(** ** [std::filesystem::path], POSIX generic format

    A path is its pathname.  The separator is [/]; a run of separators
    counts as one; there are no root names. *)

Module Path.

Definition path := string.

Definition is_sep (c : ascii) : bool := Ascii.eqb c "/".

Fixpoint all_seps (s : string) : bool :=
  match s with
  | EmptyString => true
  | String c s' => is_sep c && all_seps s'
  end.

Definition has_root_directory (p : path) : bool :=
  match p with
  | String c _ => is_sep c
  | EmptyString => false
  end.

(** A path has a relative part unless it is empty or only separators. *)
Definition has_relative_path (p : path) : bool := negb (all_seps p).

Fixpoint drop_seps (s : string) : string :=
  match s with
  | EmptyString => EmptyString
  | String c s' => if is_sep c then drop_seps s' else s
  end.

(** The filename elements of a relative part, as iteration yields them:
    a trailing separator gives a last, empty element. *)
Fixpoint rel_elements (cur : string) (s : string) : list string :=
  match s with
  | EmptyString => [cur]
  | String c s' =>
      if is_sep c then
        match s' with
        | EmptyString => [cur; EmptyString]
        | String d _ =>
            if is_sep d then rel_elements cur s' else cur :: rel_elements EmptyString s'
        end
      else rel_elements (cur ++ String c EmptyString) s'
  end.

Definition elements (p : path) : list string :=
  match drop_seps p with
  | EmptyString => []
  | r => rel_elements EmptyString r
  end.

Fixpoint list_eqb (l1 l2 : list string) : bool :=
  match l1, l2 with
  | [], [] => true
  | x :: l1', y :: l2' => String.eqb x y && list_eqb l1' l2'
  | _, _ => false
  end.

(** [operator==] on paths ([path::compare] is 0): the same root directory
    and the same elements. *)
Definition path_eq (p q : path) : bool :=
  Bool.eqb (has_root_directory p) (has_root_directory q)
  && list_eqb (elements p) (elements q).

(** [p.filename()]: what follows the last separator. *)
Fixpoint filename (p : path) : string :=
  match p with
  | EmptyString => EmptyString
  | String _ p' => if Str.contains_char "/" p then filename p' else p
  end.

Definition has_filename (p : path) : bool :=
  match filename p with
  | EmptyString => false
  | _ => true
  end.

(** The pathname up to and including its last separator. *)
Fixpoint remove_filename (p : path) : string :=
  match p with
  | EmptyString => EmptyString
  | String c p' => if Str.contains_char "/" p then String c (remove_filename p') else EmptyString
  end.

Fixpoint strip_trailing_seps (s : string) : string :=
  match s with
  | EmptyString => EmptyString
  | String c s' => if all_seps s then EmptyString else String c (strip_trailing_seps s')
  end.

(** [p.parent_path()]: [p] itself when it has no relative part, otherwise
    the pathname up to the end of the element before the last one (the
    root directory being the one separator [/]). *)
Definition parent_path (p : path) : path :=
  if has_relative_path p then
    let d := remove_filename p in
    match d, strip_trailing_seps d with
    | String _ _, EmptyString => "/"
    | _, r => r
    end
  else p.

(** [p / q] *)
Definition append (p q : path) : path :=
  if has_root_directory q then q
  else if has_filename p then p ++ "/" ++ q
  else p ++ q.

(** [p], its parent, the parent of that, ..., down to (not including) the
    root directory or the empty path: the directories
    [create_directories(p)] has to make. *)
Fixpoint lineage_upto (fuel : nat) (p : path) : list path :=
  match fuel with
  | O => []
  | S fuel' =>
      if has_relative_path p then p :: lineage_upto fuel' (parent_path p) else []
  end.

Definition lineage (p : path) : list path := lineage_upto (String.length p) p.

End Path.

(** ** The operating system, as the backend uses it

    [World] is the state of the file system.  An operation of
    [std::filesystem] either returns or throws [filesystem_error]; the
    [what()] of the exception is a string. *)

Module Sys.

Inductive outcome (A : Type) : Type :=
| Returns (a : A)
| Throws (what : string).

Arguments Returns {A} a.
Arguments Throws {A} what.

(** What a [void] operation threw, [None] when it returned. *)
Definition thrown := option string.

(** An element a directory iterator delivers. *)
Record directory_entry : Type := {
  entry_path : Path.path;
  entry_is_regular_file : bool
}.

Record OS (World : Type) : Type := {
  (** [std::getenv("HOME")], [None] for a null pointer *)
  getenv_HOME : option string;
  (** [std::filesystem::exists(p)] *)
  fs_exists : World -> Path.path -> outcome bool;
  (** [std::filesystem::is_directory(p)] *)
  fs_is_directory : World -> Path.path -> outcome bool;
  (** the entries [directory_iterator(p)] delivers, in enumeration order,
      until it ends or it (or [is_regular_file] on an entry) throws
      [filesystem_error] *)
  fs_directory_iterator : World -> Path.path -> list directory_entry;
  (** the same for [recursive_directory_iterator(p)] *)
  fs_recursive_directory_iterator : World -> Path.path -> list directory_entry;
  (** [std::filesystem::rename(from, to)] *)
  fs_rename : World -> Path.path -> Path.path -> World * thrown;
  (** [std::filesystem::copy_file(from, to, copy_options::overwrite_existing)] *)
  fs_copy_file : World -> Path.path -> Path.path -> World * thrown;
  (** [std::filesystem::remove(p)]; its [bool] is discarded by the caller *)
  fs_remove : World -> Path.path -> World * thrown;
  (** [std::filesystem::create_directories(p)]; its [bool] is discarded *)
  fs_create_directories : World -> Path.path -> World * thrown
}.

Arguments getenv_HOME {World} _.
Arguments fs_exists {World} _ _ _.
Arguments fs_is_directory {World} _ _ _.
Arguments fs_directory_iterator {World} _ _ _.
Arguments fs_recursive_directory_iterator {World} _ _ _.
Arguments fs_rename {World} _ _ _ _.
Arguments fs_copy_file {World} _ _ _ _.
Arguments fs_remove {World} _ _ _.
Arguments fs_create_directories {World} _ _ _.

End Sys.

(** ** namespace utils *)

Module utils.

(** The loop
    [while ((pos = regex_pattern.find("**", pos)) != npos)
       { regex_pattern.replace(pos, 2, ".*"); pos += 2; }]:
    every occurrence of two stars found from left to right, without
    overlap, becomes [.*]. *)
Fixpoint replace_double_star (s : string) : string :=
  match s with
  | EmptyString => EmptyString
  | String c rest =>
      match rest with
      | String d rest' =>
          if Ascii.eqb c "*" && Ascii.eqb d "*"
          then String "." (String "*" (replace_double_star rest'))
          else String c (replace_double_star rest)
      | EmptyString => String c EmptyString
      end
  end.

(** One turn of [for (char c : regex_pattern)]. *)
Definition escape_char (c : ascii) : string :=
  if Ascii.eqb c "*" || Ascii.eqb c "?" then
    if Ascii.eqb c "*" then ".*"
    else if Ascii.eqb c "?" then "."
    else ""
  else if Regex.is_escaped c then String "\" (String c EmptyString)
  else String c EmptyString.

Fixpoint escape (s : string) : string :=
  match s with
  | EmptyString => EmptyString
  | String c s' => escape_char c ++ escape s'
  end.

(** The expression handed to [std::regex]. *)
Definition glob_to_regex (pattern : string) : string :=
  escape (replace_double_star pattern).

Definition matches_glob_pattern (filename pattern : string) : bool :=
  match Regex.regex_compile (glob_to_regex pattern) with
  | Some re => Regex.regex_match re filename
  | None => Str.find_is_not_npos filename pattern   (* catch (regex_error) *)
  end.

Definition matches_pattern (filename pattern : string) : bool :=
  match pattern with
  | EmptyString => true
  | String c0 _ =>
      if Str.contains_char "*" pattern || Str.contains_char "?" pattern
      then matches_glob_pattern filename pattern
      else if Ascii.eqb c0 "."
      then Str.ends_with filename pattern
      else String.eqb filename pattern
  end.

(** *** [struct FileOpResult]

    The counters are [size_t] values; a [time_point] is its tick count,
    0 when default-constructed. *)

Record FileOpResult : Type := {
  success : bool;
  operation : string;
  message : string;
  error_message : string;
  files_scanned : Z;
  files_matched : Z;
  files_affected : Z;
  errors : list string;
  start_time : Z;
  end_time : Z
}.

(** [utils::FileOpResult result;] *)
Definition default_result : FileOpResult :=
  {| success := false; operation := ""; message := ""; error_message := "";
     files_scanned := 0; files_matched := 0; files_affected := 0;
     errors := []; start_time := 0; end_time := 0 |}.

Definition set_success (b : bool) (r : FileOpResult) : FileOpResult :=
  {| success := b; operation := operation r; message := message r;
     error_message := error_message r; files_scanned := files_scanned r;
     files_matched := files_matched r; files_affected := files_affected r;
     errors := errors r; start_time := start_time r; end_time := end_time r |}.

Definition set_operation (s : string) (r : FileOpResult) : FileOpResult :=
  {| success := success r; operation := s; message := message r;
     error_message := error_message r; files_scanned := files_scanned r;
     files_matched := files_matched r; files_affected := files_affected r;
     errors := errors r; start_time := start_time r; end_time := end_time r |}.

Definition set_message (s : string) (r : FileOpResult) : FileOpResult :=
  {| success := success r; operation := operation r; message := s;
     error_message := error_message r; files_scanned := files_scanned r;
     files_matched := files_matched r; files_affected := files_affected r;
     errors := errors r; start_time := start_time r; end_time := end_time r |}.

Definition set_error_message (s : string) (r : FileOpResult) : FileOpResult :=
  {| success := success r; operation := operation r; message := message r;
     error_message := s; files_scanned := files_scanned r;
     files_matched := files_matched r; files_affected := files_affected r;
     errors := errors r; start_time := start_time r; end_time := end_time r |}.

Definition set_files_scanned (n : Z) (r : FileOpResult) : FileOpResult :=
  {| success := success r; operation := operation r; message := message r;
     error_message := error_message r; files_scanned := n;
     files_matched := files_matched r; files_affected := files_affected r;
     errors := errors r; start_time := start_time r; end_time := end_time r |}.

Definition set_files_matched (n : Z) (r : FileOpResult) : FileOpResult :=
  {| success := success r; operation := operation r; message := message r;
     error_message := error_message r; files_scanned := files_scanned r;
     files_matched := n; files_affected := files_affected r;
     errors := errors r; start_time := start_time r; end_time := end_time r |}.

Definition set_files_affected (n : Z) (r : FileOpResult) : FileOpResult :=
  {| success := success r; operation := operation r; message := message r;
     error_message := error_message r; files_scanned := files_scanned r;
     files_matched := files_matched r; files_affected := n;
     errors := errors r; start_time := start_time r; end_time := end_time r |}.

Definition set_errors (l : list string) (r : FileOpResult) : FileOpResult :=
  {| success := success r; operation := operation r; message := message r;
     error_message := error_message r; files_scanned := files_scanned r;
     files_matched := files_matched r; files_affected := files_affected r;
     errors := l; start_time := start_time r; end_time := end_time r |}.

Definition set_start_time (t : Z) (r : FileOpResult) : FileOpResult :=
  {| success := success r; operation := operation r; message := message r;
     error_message := error_message r; files_scanned := files_scanned r;
     files_matched := files_matched r; files_affected := files_affected r;
     errors := errors r; start_time := t; end_time := end_time r |}.

Definition set_end_time (t : Z) (r : FileOpResult) : FileOpResult :=
  {| success := success r; operation := operation r; message := message r;
     error_message := error_message r; files_scanned := files_scanned r;
     files_matched := files_matched r; files_affected := files_affected r;
     errors := errors r; start_time := start_time r; end_time := t |}.

(** *** Directory safety *)

Definition root_directories : list Path.path := ["/"; "C:\"; "D:\"].

Definition system_dirs : list string :=
  ["/bin"; "/sbin"; "/usr"; "/etc"; "/var"; "/lib"; "/opt";
   "C:\Windows"; "C:\Program Files"; "C:\Program Files (x86)"].

Definition is_system_directory (path : Path.path) : bool :=
  existsb (fun sys_dir => Str.find_is_0 path sys_dir) system_dirs.

Definition is_safe_directory (path : Path.path) : bool :=
  if Path.path_eq path "/" || Path.path_eq path "C:\" || Path.path_eq path "D:\"
  then false
  else if is_system_directory path then false
  else true.

(** *** Scans and path expansion *)

Section WithOS.

Context {World : Type}.
Variable os : Sys.OS World.

Definition regular_files (entries : list Sys.directory_entry) : list Path.path :=
  map Sys.entry_path (filter Sys.entry_is_regular_file entries).

(** The tests on [dir_path] are outside the [try]: what they throw
    leaves the function. *)
Definition scan_directory (w : World) (dir_path : Path.path)
  : Sys.outcome (list Path.path) :=
  match Sys.fs_exists os w dir_path with
  | Sys.Throws what => Sys.Throws what
  | Sys.Returns false => Sys.Returns []
  | Sys.Returns true =>
      match Sys.fs_is_directory os w dir_path with
      | Sys.Throws what => Sys.Throws what
      | Sys.Returns false => Sys.Returns []
      | Sys.Returns true =>
          Sys.Returns (regular_files (Sys.fs_directory_iterator os w dir_path))
      end
  end.

Definition scan_directory_recursive (w : World) (dir_path : Path.path)
  : Sys.outcome (list Path.path) :=
  match Sys.fs_exists os w dir_path with
  | Sys.Throws what => Sys.Throws what
  | Sys.Returns false => Sys.Returns []
  | Sys.Returns true =>
      match Sys.fs_is_directory os w dir_path with
      | Sys.Throws what => Sys.Throws what
      | Sys.Returns false => Sys.Returns []
      | Sys.Returns true =>
          Sys.Returns (regular_files (Sys.fs_recursive_directory_iterator os w dir_path))
      end
  end.

Definition expand_path (path_string : string) : Path.path :=
  if Str.starts_with path_string "~/" then
    match Sys.getenv_HOME os with
    | Some home => Path.append home (Str.substr_from 2 path_string)
    | None => path_string
    end
  else path_string.

End WithOS.

End utils.



(** ** namespace actions

    The handlers write to [std::cerr] when [cmd.verbose] is set; the
    diagnostic stream is no part of the result or of the file system and
    is left out. *)

Module actions.

Import utils.

Record Command : Type := {
  action : string;
  pattern : string;
  source : string;
  destination : string;
  dry_run : bool;
  force : bool;
  recursive : bool;
  verbose : bool
}.

(** [int] and [size_t] on the LP64 targets of the backend. *)
Definition INT_MAX : Z := 2147483647.

Definition int_wrap (z : Z) : Z := (z + 2 ^ 31) mod 2 ^ 32 - 2 ^ 31.

(** [count++] on an [int] *)
Definition int_incr (count : Z) : Z := int_wrap (count + 1).

(** [result.files_affected = count;], an [int] stored in a [size_t] *)
Definition size_t_of_int (count : Z) : Z := count mod 2 ^ 64.

(** [files.size()] *)
Definition size {A : Type} (l : list A) : Z := Z.of_nat (List.length l).

Definition validate_command (cmd : Command) : bool :=
  match action cmd with
  | EmptyString => false
  | _ =>
      if String.eqb (action cmd) "move" || String.eqb (action cmd) "copy" then
        negb (String.eqb (source cmd) "") && negb (String.eqb (destination cmd) "")
      else if String.eqb (action cmd) "delete" then
        negb (String.eqb (source cmd) "")
      else if String.eqb (action cmd) "create_folder" then
        negb (String.eqb (destination cmd) "")
      else false
  end.

Section WithOS.

Context {World : Type}.
Variable os : Sys.OS World.

(** What [std::chrono::high_resolution_clock::now()] returns when a
    handler starts and when it reaches its end. *)
Variables now_at_start now_at_end : Z.

(** The filter loop of the three batch handlers. *)
Definition matching (pattern : string) (files : list Path.path) : list Path.path :=
  filter (fun file => matches_pattern (Path.filename file) pattern) files.

(** The batch loop: [attempt] is the body of the inner [try], [failed]
    the head of the error pushed by its [catch]. *)
Fixpoint for_each_file (attempt : World -> Path.path -> World * Sys.thrown)
    (failed : string) (files : list Path.path)
    (count : Z) (errs : list string) (w : World) : Z * list string * World :=
  match files with
  | [] => (count, errs, w)
  | file :: rest =>
      match attempt w file with
      | (w', None) => for_each_file attempt failed rest (int_incr count) errs w'
      | (w', Some what) =>
          for_each_file attempt failed rest count
            (List.app errs [failed ++ file ++ ": " ++ what]) w'
      end
  end.

Definition scan (cmd : Command) (w : World) (source_path : Path.path)
  : Sys.outcome (list Path.path) :=
  if recursive cmd then scan_directory_recursive os w source_path
  else scan_directory os w source_path.

Definition move_files (cmd : Command) (w : World) : FileOpResult * World :=
  let result := set_start_time now_at_start (set_operation "move" default_result) in
  let source_path := expand_path os (source cmd) in
  let dest_path := expand_path os (destination cmd) in
  if negb (is_safe_directory source_path) then
    (set_error_message "Source directory is not safe to operate on"
       (set_success false result), w)
  else if negb (is_safe_directory dest_path) then
    (set_error_message "Destination directory is not safe to operate on"
       (set_success false result), w)
  else
    match scan cmd w source_path with
    | Sys.Throws what =>
        (set_end_time now_at_end
           (set_error_message ("Move operation failed: " ++ what)
              (set_success false result)), w)
    | Sys.Returns files =>
        let matching_files := matching (pattern cmd) files in
        let result :=
          set_files_matched (size matching_files)
            (set_files_scanned (size files) result) in
        if dry_run cmd then
          (set_success true
             (set_message ("Would move " ++ Str.to_string (size matching_files) ++ " files")
                result), w)
        else
          let '(moved_count, errs, w') :=
            for_each_file
              (fun w file => Sys.fs_rename os w file (Path.append dest_path (Path.filename file)))
              "Failed to move " matching_files 0 (errors result) w in
          (set_end_time now_at_end
             (set_success true
                (set_message ("Successfully moved " ++ Str.to_string moved_count ++ " files")
                   (set_files_affected (size_t_of_int moved_count)
                      (set_errors errs result)))), w')
    end.

Definition copy_files (cmd : Command) (w : World) : FileOpResult * World :=
  let result := set_start_time now_at_start (set_operation "copy" default_result) in
  let source_path := expand_path os (source cmd) in
  let dest_path := expand_path os (destination cmd) in
  if negb (is_safe_directory source_path) then
    (set_error_message "Source directory is not safe to operate on"
       (set_success false result), w)
  else if negb (is_safe_directory dest_path) then
    (set_error_message "Destination directory is not safe to operate on"
       (set_success false result), w)
  else
    match scan cmd w source_path with
    | Sys.Throws what =>
        (set_end_time now_at_end
           (set_error_message ("Copy operation failed: " ++ what)
              (set_success false result)), w)
    | Sys.Returns files =>
        let matching_files := matching (pattern cmd) files in
        let result :=
          set_files_matched (size matching_files)
            (set_files_scanned (size files) result) in
        if dry_run cmd then
          (set_success true
             (set_message ("Would copy " ++ Str.to_string (size matching_files) ++ " files")
                result), w)
        else
          let '(copied_count, errs, w') :=
            for_each_file
              (fun w file => Sys.fs_copy_file os w file (Path.append dest_path (Path.filename file)))
              "Failed to copy " matching_files 0 (errors result) w in
          (set_end_time now_at_end
             (set_success true
                (set_message ("Successfully copied " ++ Str.to_string copied_count ++ " files")
                   (set_files_affected (size_t_of_int copied_count)
                      (set_errors errs result)))), w')
    end.

Definition delete_files (cmd : Command) (w : World) : FileOpResult * World :=
  let result := set_start_time now_at_start (set_operation "delete" default_result) in
  let source_path := expand_path os (source cmd) in
  if negb (is_safe_directory source_path) then
    (set_error_message "Source directory is not safe to operate on"
       (set_success false result), w)
  else
    match scan cmd w source_path with
    | Sys.Throws what =>
        (set_end_time now_at_end
           (set_error_message ("Delete operation failed: " ++ what)
              (set_success false result)), w)
    | Sys.Returns files =>
        let matching_files := matching (pattern cmd) files in
        let result :=
          set_files_matched (size matching_files)
            (set_files_scanned (size files) result) in
        if dry_run cmd then
          (set_success true
             (set_message ("Would delete " ++ Str.to_string (size matching_files) ++ " files")
                result), w)
        else
          let '(deleted_count, errs, w') :=
            for_each_file (fun w file => Sys.fs_remove os w file)
              "Failed to delete " matching_files 0 (errors result) w in
          (set_end_time now_at_end
             (set_success true
                (set_message ("Successfully deleted " ++ Str.to_string deleted_count ++ " files")
                   (set_files_affected (size_t_of_int deleted_count)
                      (set_errors errs result)))), w')
    end.

Definition create_folder (cmd : Command) (w : World) : FileOpResult * World :=
  let result := set_start_time now_at_start (set_operation "create_folder" default_result) in
  let folder_path := expand_path os (destination cmd) in
  if negb (is_safe_directory (Path.parent_path folder_path)) then
    (set_error_message "Parent directory is not safe to operate on"
       (set_success false result), w)
  else if dry_run cmd then
    (set_success true (set_message ("Would create folder: " ++ folder_path) result), w)
  else
    match Sys.fs_create_directories os w folder_path with
    | (w', Some what) =>
        (set_end_time now_at_end
           (set_error_message ("Create folder operation failed: " ++ what)
              (set_success false result)), w')
    | (w', None) =>
        (set_end_time now_at_end
           (set_success true
              (set_message ("Successfully created folder: " ++ folder_path)
                 (set_files_affected 1 result))), w')
    end.

Definition execute_command (cmd : Command) (w : World) : FileOpResult * World :=
  if negb (validate_command cmd) then
    (set_error_message "Invalid command" (set_success false default_result), w)
  else if String.eqb (action cmd) "move" then move_files cmd w
  else if String.eqb (action cmd) "copy" then copy_files cmd w
  else if String.eqb (action cmd) "delete" then delete_files cmd w
  else if String.eqb (action cmd) "create_folder" then create_folder cmd w
  else
    (set_error_message ("Unknown action: " ++ action cmd)
       (set_success false default_result), w).

End WithOS.

End actions.

(** ** A file system in memory

    A small instance of [Sys.OS], to run the handlers on: a table from
    pathnames to nodes, in enumeration order. *)

Module MemFS.

Inductive node : Type :=
| File (locked : bool)   (* a regular file; a locked one cannot be moved, read or removed *)
| Dir
| Denied.                (* [stat] fails with EACCES *)

Definition World := list (Path.path * node).

Fixpoint lookup (p : Path.path) (w : World) : option node :=
  match w with
  | [] => None
  | (q, n) :: w' => if String.eqb q p then Some n else lookup p w'
  end.

Fixpoint set (p : Path.path) (n : node) (w : World) : World :=
  match w with
  | [] => [(p, n)]
  | (q, m) :: w' => if String.eqb q p then (p, n) :: w' else (q, m) :: set p n w'
  end.

Fixpoint unset (p : Path.path) (w : World) : World :=
  match w with
  | [] => []
  | (q, m) :: w' => if String.eqb q p then w' else (q, m) :: unset p w'
  end.

Definition exists_ (w : World) (p : Path.path) : Sys.outcome bool :=
  match lookup p w with
  | Some Denied => Sys.Throws "filesystem error: status: Permission denied"
  | Some _ => Sys.Returns true
  | None => Sys.Returns false
  end.

Definition is_directory (w : World) (p : Path.path) : Sys.outcome bool :=
  match lookup p w with
  | Some Denied => Sys.Throws "filesystem error: status: Permission denied"
  | Some Dir => Sys.Returns true
  | _ => Sys.Returns false
  end.

Definition entry (e : Path.path * node) : Sys.directory_entry :=
  {| Sys.entry_path := fst e;
     Sys.entry_is_regular_file := match snd e with File _ => true | _ => false end |}.

Definition directory_iterator (w : World) (d : Path.path) : list Sys.directory_entry :=
  map entry (filter (fun e => String.eqb (Path.parent_path (fst e)) d) w).

Definition recursive_directory_iterator (w : World) (d : Path.path)
  : list Sys.directory_entry :=
  map entry (filter (fun e => String.prefix (d ++ "/") (fst e)) w).

Definition rename (w : World) (from to : Path.path) : World * Sys.thrown :=
  match lookup from w with
  | Some (File false) => (set to (File false) (unset from w), None)
  | Some _ => (w, Some "filesystem error: cannot rename: Operation not permitted")
  | None => (w, Some "filesystem error: cannot rename: No such file or directory")
  end.

Definition copy_file (w : World) (from to : Path.path) : World * Sys.thrown :=
  match lookup from w with
  | Some (File false) => (set to (File false) w, None)
  | Some _ => (w, Some "filesystem error: cannot copy file: Permission denied")
  | None => (w, Some "filesystem error: cannot copy file: No such file or directory")
  end.

Definition remove (w : World) (p : Path.path) : World * Sys.thrown :=
  match lookup p w with
  | Some (File true) => (w, Some "filesystem error: cannot remove: Operation not permitted")
  | Some Denied => (w, Some "filesystem error: cannot remove: Permission denied")
  | Some _ => (unset p w, None)
  | None => (w, None)
  end.

Definition blocked (w : World) (p : Path.path) : bool :=
  match lookup p w with
  | Some (File _) | Some Denied => true
  | _ => false
  end.

Definition create_directories (w : World) (p : Path.path) : World * Sys.thrown :=
  match lookup p w with
  | Some Dir => (w, None)
  | _ =>
      if existsb (blocked w) (Path.lineage p) || negb (Path.has_relative_path p)
      then (w, Some "filesystem error: cannot create directories: Not a directory")
      else (fold_right (fun q w' => set q Dir w') w (Path.lineage p), None)
  end.

Definition os : Sys.OS World :=
  {| Sys.getenv_HOME := Some "/home/user";
     Sys.fs_exists := exists_;
     Sys.fs_is_directory := is_directory;
     Sys.fs_directory_iterator := directory_iterator;
     Sys.fs_recursive_directory_iterator := recursive_directory_iterator;
     Sys.fs_rename := rename;
     Sys.fs_copy_file := copy_file;
     Sys.fs_remove := remove;
     Sys.fs_create_directories := create_directories |}.

(** Directory [/tmp/D] holds [a.txt], [b.txt] (locked) and [c.txt];
    [/tmp/out] is empty; [/home/other/private] cannot be inspected. *)
Definition sample : World :=
  [("/tmp", Dir); ("/tmp/D", Dir);
   ("/tmp/D/a.txt", File false); ("/tmp/D/b.txt", File true);
   ("/tmp/D/c.txt", File false); ("/tmp/out", Dir);
   ("/home/other/private", Denied)].

Definition command (action pattern source destination : string) (dry_run : bool)
  : actions.Command :=
  {| actions.action := action; actions.pattern := pattern;
     actions.source := source; actions.destination := destination;
     actions.dry_run := dry_run; actions.force := false;
     actions.recursive := false; actions.verbose := false |}.

End MemFS.

(** ** Definitions used to state the properties *)

Module Spec.

Import utils actions.

(** The pattern is a glob: it holds [*] or [?]. *)
Definition has_wildcard (pattern : string) : bool :=
  Str.contains_char "*" pattern || Str.contains_char "?" pattern.

(** What the translation hands to [std::regex], once compiled: one piece
    per character of the (rewritten) pattern. *)
Definition piece_of (c : ascii) : Regex.piece :=
  if Ascii.eqb c "*" then Regex.Star Regex.Dot
  else if Ascii.eqb c "?" then Regex.One Regex.Dot
  else Regex.One (Regex.Chr c).

Fixpoint pieces (s : string) : Regex.regex :=
  match s with
  | EmptyString => []
  | String c s' => piece_of c :: pieces s'
  end.

Definition tokens_of (c : ascii) : list Regex.token :=
  if Ascii.eqb c "*" then [Regex.TAtom Regex.Dot; Regex.TStar]
  else if Ascii.eqb c "?" then [Regex.TAtom Regex.Dot]
  else [Regex.TAtom (Regex.Chr c)].

Fixpoint tokens (s : string) : list Regex.token :=
  match s with
  | EmptyString => []
  | String c s' => (tokens_of c ++ tokens s')%list
  end.

(** A pattern without wildcards, compiled: its characters one by one. *)
Fixpoint literal (s : string) : Regex.regex :=
  match s with
  | EmptyString => []
  | String c s' => Regex.One (Regex.Chr c) :: literal s'
  end.

(** No line terminator occurs in [s]. *)
Fixpoint single_line (s : string) : bool :=
  match s with
  | EmptyString => true
  | String c s' => negb (Regex.is_line_terminator c) && single_line s'
  end.

(** A command names one of the four actions and carries the fields that
    action requires. *)
Definition well_formed (cmd : Command) : Prop :=
  ((action cmd = "move" \/ action cmd = "copy")
     /\ source cmd <> "" /\ destination cmd <> "")
  \/ (action cmd = "delete" /\ source cmd <> "")
  \/ (action cmd = "create_folder" /\ destination cmd <> "").

(** The result of a command rejected by validation: nothing but
    [success] and [error_message] is assigned. *)
Definition invalid_command_result : FileOpResult :=
  {| success := false; operation := ""; message := "";
     error_message := "Invalid command";
     files_scanned := 0; files_matched := 0; files_affected := 0;
     errors := []; start_time := 0; end_time := 0 |}.

(** A handler stopped by a safety check: besides [operation] and
    [start_time], only [success] and [error_message] are assigned. *)
Definition aborted (op : string) (t0 : Z) (msg : string) : FileOpResult :=
  {| success := false; operation := op; message := "";
     error_message := msg;
     files_scanned := 0; files_matched := 0; files_affected := 0;
     errors := []; start_time := t0; end_time := 0 |}.

(** The attempts of a batch, in order: each file with what its operation
    threw, and the file system the batch leaves. *)
Fixpoint attempts {World : Type} (attempt : World -> Path.path -> World * Sys.thrown)
    (files : list Path.path) (w : World) : list (Path.path * Sys.thrown) * World :=
  match files with
  | [] => ([], w)
  | file :: rest =>
      let (w', t) := attempt w file in
      let (l, w'') := attempts attempt rest w' in
      ((file, t) :: l, w'')
  end.

Definition succeeded (trace : list (Path.path * Sys.thrown)) : list Path.path :=
  flat_map (fun a => match snd a with None => [fst a] | Some _ => [] end) trace.

(** One error per failed attempt, naming the file and the cause. *)
Definition failures (failed : string) (trace : list (Path.path * Sys.thrown))
  : list string :=
  flat_map (fun a => match snd a with
                     | Some what => [failed ++ fst a ++ ": " ++ what]
                     | None => []
                     end) trace.

(** What a handler returns for a batch it ran over [files]. *)
Definition batch_result {World : Type}
    (attempt : World -> Path.path -> World * Sys.thrown) (failed : string)
    (files : list Path.path) (w : World) (out : FileOpResult * World) : Prop :=
  let (trace, w_end) := attempts attempt files w in
  map fst trace = files /\
  snd out = w_end /\
  success (fst out) = true /\
  error_message (fst out) = "" /\
  files_matched (fst out) = size files /\
  files_affected (fst out) = size (succeeded trace) /\
  errors (fst out) = failures failed trace /\
  (files_affected (fst out) + size (errors (fst out)) = files_matched (fst out))%Z.

(** What a handler returns for a dry run: [verb] is the word of the
    preview, [failure] the head of the message when the scan throws. *)
Definition dry_run_result {World : Type} (os : Sys.OS World)
    (handler : Z -> Z -> Command -> World -> FileOpResult * World)
    (verb failure : string) (t0 t1 : Z) (cmd : Command) (w : World) : Prop :=
  let out := handler t0 t1 cmd w in
  snd out = w /\
  files_affected (fst out) = 0%Z /\
  errors (fst out) = [] /\
  match scan os cmd w (expand_path os (source cmd)) with
  | Sys.Returns files =>
      success (fst out) = true /\
      files_scanned (fst out) = size files /\
      files_matched (fst out) = size (matching (pattern cmd) files) /\
      message (fst out)
      = "Would " ++ verb ++ " " ++ Str.to_string (files_matched (fst out)) ++ " files"
  | Sys.Throws what =>
      success (fst out) = false /\
      error_message (fst out) = failure ++ what
  end /\
  (forall t0' t1',
     files_scanned (fst (handler t0' t1' cmd (snd out))) = files_scanned (fst out) /\
     files_matched (fst (handler t0' t1' cmd (snd out))) = files_matched (fst out)).

(** The dry-run sentence read with no condition on the scan: on safe
    directories every dry run succeeds with a preview. *)
Definition dry_run_previews {World : Type}
    (handler : Z -> Z -> Command -> World -> FileOpResult * World)
    (verb : string) (t0 t1 : Z) (cmd : Command) (w : World) : Prop :=
  let out := handler t0 t1 cmd w in
  snd out = w /\
  files_affected (fst out) = 0%Z /\
  success (fst out) = true /\
  message (fst out)
  = "Would " ++ verb ++ " " ++ Str.to_string (files_matched (fst out)) ++ " files" /\
  (forall t0' t1',
     files_scanned (fst (handler t0' t1' cmd (snd out))) = files_scanned (fst out) /\
     files_matched (fst (handler t0' t1' cmd (snd out))) = files_matched (fst out)).

Definition dry_run_always_previews : Prop :=
  forall (World : Type) (os : Sys.OS World) (t0 t1 : Z) (cmd : Command) (w : World),
    dry_run cmd = true ->
    is_safe_directory (expand_path os (source cmd)) = true ->
    (is_safe_directory (expand_path os (destination cmd)) = true ->
       dry_run_previews (move_files os) "move" t0 t1 cmd w /\
       dry_run_previews (copy_files os) "copy" t0 t1 cmd w) /\
    dry_run_previews (delete_files os) "delete" t0 t1 cmd w.

(** What [std::filesystem::create_directories] guarantees: no error on a
    directory that exists, and, when it returns after making [p], [p] and
    the directories above it are directories. *)
Record create_directories_contract {World : Type} (os : Sys.OS World) : Prop := {
  existing_directory : forall w p,
    Sys.fs_is_directory os w p = Sys.Returns true ->
    Sys.fs_create_directories os w p = (w, None);
  new_directory : forall w w' p,
    Sys.fs_is_directory os w p <> Sys.Returns true ->
    Sys.fs_create_directories os w p = (w', None) ->
    forall q, In q (Path.lineage p) -> Sys.fs_is_directory os w' q = Sys.Returns true
}.

(** What [create_folder] returns once [create_directories] has returned. *)
Definition folder_created (t0 t1 : Z) (folder_path : Path.path) : FileOpResult :=
  {| success := true; operation := "create_folder";
     message := "Successfully created folder: " ++ folder_path;
     error_message := "";
     files_scanned := 0; files_matched := 0; files_affected := 1;
     errors := []; start_time := t0; end_time := t1 |}.

(** What [create_folder] returns once [create_directories] has thrown. *)
Definition folder_failed (t0 t1 : Z) (what : string) : FileOpResult :=
  {| success := false; operation := "create_folder"; message := "";
     error_message := "Create folder operation failed: " ++ what;
     files_scanned := 0; files_matched := 0; files_affected := 0;
     errors := []; start_time := t0; end_time := t1 |}.

(** The create-folder sentence read with no condition on the creation:
    past the safety check, every run that is not a dry run succeeds. *)
Definition create_folder_always_succeeds : Prop :=
  forall (World : Type) (os : Sys.OS World) (t0 t1 : Z) (cmd : Command) (w : World),
    create_directories_contract os ->
    dry_run cmd = false ->
    is_safe_directory (Path.parent_path (expand_path os (destination cmd))) = true ->
    let out := create_folder os t0 t1 cmd w in
    success (fst out) = true /\ files_affected (fst out) = 1%Z.

(** The glob of the specification: [*] stands for any run of characters,
    [?] for exactly one, every other character for itself without regard
    to case, and the whole filename is matched.  [wild] says which
    characters a wildcard may stand for. *)
Inductive glob (wild : ascii -> bool) : string -> string -> Prop :=
| glob_end : glob wild "" ""
| glob_star_none (p s : string) :
    glob wild p s -> glob wild (String "*" p) s
| glob_star_more (p : string) (c : ascii) (s : string) :
    wild c = true -> glob wild (String "*" p) s ->
    glob wild (String "*" p) (String c s)
| glob_one (p : string) (c : ascii) (s : string) :
    wild c = true -> glob wild p s -> glob wild (String "?" p) (String c s)
| glob_char (x : ascii) (p : string) (c : ascii) (s : string) :
    x <> "*"%char -> x <> "?"%char -> Str.tolower x = Str.tolower c ->
    glob wild p s -> glob wild (String x p) (String c s).

(** A wildcard stands for any character. *)
Definition any_character (c : ascii) : bool := true.

(** A wildcard stands for any character but a line terminator. *)
Definition within_line (c : ascii) : bool := negb (Regex.is_line_terminator c).

(** Two stars in a row occur in the pattern. *)
Fixpoint has_double_star (s : string) : bool :=
  match s with
  | EmptyString => false
  | String c rest =>
      match rest with
      | EmptyString => false
      | String d _ => (Ascii.eqb c "*" && Ascii.eqb d "*") || has_double_star rest
      end
  end.

(** The dispatch sentence as it is written: a pattern with a wildcard
    is matched as the glob in which a wildcard stands for any character. *)
Definition dispatch_as_claimed : Prop :=
  (forall filename, matches_pattern filename "" = true) /\
  (forall filename pattern, has_wildcard pattern = true ->
     (matches_pattern filename pattern = true <-> glob any_character pattern filename)) /\
  (forall filename rest, has_wildcard (String "." rest) = false ->
     (matches_pattern filename (String "." rest) = true <->
      exists pre, filename = pre ++ String "." rest)) /\
  (forall filename c rest, has_wildcard (String c rest) = false -> c <> "."%char ->
     (matches_pattern filename (String c rest) = true <-> filename = String c rest)).

(** A command that scans recursively. *)
Definition recursive_command (action pattern source destination : string)
    (dry_run : bool) : Command :=
  {| action := action; pattern := pattern; source := source;
     destination := destination; dry_run := dry_run; force := false;
     recursive := true; verbose := false |}.

End Spec.

(** ** namespace utils: the path validators (utils.cpp) *)

Module validators.

Import utils.

Section WithOS.

Context {World : Type}.
Variable os : Sys.OS World.

Definition validate_source_path (w : World) (path : Path.path) : Sys.outcome bool :=
  match Sys.fs_exists os w path with
  | Sys.Throws what => Sys.Throws what
  | Sys.Returns false => Sys.Returns false
  | Sys.Returns true =>
      match Sys.fs_is_directory os w path with
      | Sys.Throws what => Sys.Throws what
      | Sys.Returns false => Sys.Returns false
      | Sys.Returns true => Sys.Returns (is_safe_directory path)
      end
  end.

Definition validate_destination_path (w : World) (path : Path.path) : Sys.outcome bool :=
  match Sys.fs_exists os w path with
  | Sys.Throws what => Sys.Throws what
  | Sys.Returns true =>
      match Sys.fs_is_directory os w path with
      | Sys.Throws what => Sys.Throws what
      | Sys.Returns false => Sys.Returns false
      | Sys.Returns true => Sys.Returns (is_safe_directory path)
      end
  | Sys.Returns false => Sys.Returns (is_safe_directory path)
  end.

End WithOS.

End validators.

(** ** [nlohmann::json], as main.cpp uses it

    A value as [json::parse] returns it.  The members of an object are
    its key-value pairs, each key once. *)

Module Json.

Unset Elimination Schemes.

Inductive json : Type :=
| JNull
| JBool (b : bool)
| JInt (n : Z)
| JFloat (repr : string)
| JString (s : string)
| JArray (items : list json)
| JObject (members : list (string * json)).

Set Elimination Schemes.

Fixpoint find (key : string) (members : list (string * json)) : option json :=
  match members with
  | [] => None
  | (k, v) :: rest => if String.eqb k key then Some v else find key rest
  end.

(** [j.contains(key)]: false on a value that is no object. *)
Definition contains (j : json) (key : string) : bool :=
  match j with
  | JObject members => match find key members with Some _ => true | None => false end
  | _ => false
  end.

(** [j.contains(key) && j[key].is_string()], with [j[key].get<std::string>()] *)
Definition string_member (j : json) (key : string) : option string :=
  match j with
  | JObject members =>
      match find key members with
      | Some (JString s) => Some s
      | _ => None
      end
  | _ => None
  end.

(** [j.value(key, false)]: the default when the key is missing;
    [type_error] 302 when the member is no boolean, 306 when [j] is no
    object. *)
Definition value_bool (j : json) (key : string) : Sys.outcome bool :=
  match j with
  | JObject members =>
      match find key members with
      | None => Sys.Returns false
      | Some (JBool b) => Sys.Returns b
      | Some _ => Sys.Throws "[json.exception.type_error.302] type must be boolean"
      end
  | _ => Sys.Throws "[json.exception.type_error.306] cannot use value() with this type"
  end.

(** Well-formed UTF-8, as [dump()] checks every string it writes: one
    byte below 0x80, or a lead byte with its continuation bytes, without
    overlong forms, surrogates or code points above U+10FFFF. *)
Definition byte_in (lo hi : nat) (c : ascii) : bool :=
  (lo <=? nat_of_ascii c)%nat && (nat_of_ascii c <=? hi)%nat.

Definition continuation (c : ascii) : bool := byte_in 128 191 c.

Definition lead3 (b0 b1 : ascii) : bool :=
  (byte_in 224 224 b0 && byte_in 160 191 b1)
  || (byte_in 225 236 b0 && continuation b1)
  || (byte_in 237 237 b0 && byte_in 128 159 b1)
  || (byte_in 238 239 b0 && continuation b1).

Definition lead4 (b0 b1 : ascii) : bool :=
  (byte_in 240 240 b0 && byte_in 144 191 b1)
  || (byte_in 241 243 b0 && continuation b1)
  || (byte_in 244 244 b0 && byte_in 128 143 b1).

Fixpoint valid_utf8 (s : string) : bool :=
  match s with
  | EmptyString => true
  | String b0 r0 =>
      if byte_in 0 127 b0 then valid_utf8 r0
      else
        match r0 with
        | EmptyString => false
        | String b1 r1 =>
            if byte_in 194 223 b0 then continuation b1 && valid_utf8 r1
            else
              match r1 with
              | EmptyString => false
              | String b2 r2 =>
                  if lead3 b0 b1 then continuation b2 && valid_utf8 r2
                  else
                    match r2 with
                    | EmptyString => false
                    | String b3 r3 =>
                        if lead4 b0 b1
                        then continuation b2 && continuation b3 && valid_utf8 r3
                        else false
                    end
              end
        end
  end.

(** [j.dump()] returns: every string in [j] is well-formed UTF-8.
    Otherwise it throws [type_error] 316. *)
Fixpoint dumps (j : json) : bool :=
  match j with
  | JString s => valid_utf8 s
  | JArray items => forallb dumps items
  | JObject members =>
      forallb (fun kv => match kv with (k, v) => valid_utf8 k && dumps v end) members
  | _ => true
  end.

End Json.

(** ** main.cpp

    [main] reads one line, parses it and prints one JSON object.  Here it
    starts from what [json::parse] gave ([None] when it threw
    [parse_error]) and returns the object it prints, if any, with its
    members in the order of the assignments, the exit status and the file
    system.  Nothing is printed when [dump()] throws.  What goes to
    [std::cerr] is left out. *)

Module program.

Import utils actions Json.

(** A string field: the member when it is a string, empty otherwise. *)
Definition string_or_empty (j : json) (key : string) : string :=
  match string_member j key with
  | Some s => s
  | None => ""
  end.

(** The [json output] of [main]. *)
Definition output (result : FileOpResult) : json :=
  JObject
    ([("success", JBool (success result));
      ("operation", JString (operation result));
      ("message", JString (message result));
      ("files_scanned", JInt (files_scanned result));
      ("files_matched", JInt (files_matched result));
      ("files_affected", JInt (files_affected result));
      ("start_time", JString (Str.to_string (start_time result)));
      ("end_time", JString (Str.to_string (end_time result)))]
     ++ (match errors result with
         | [] => []
         | _ :: _ => [("errors", JArray (map JString (errors result)))]
         end)
     ++ (if negb (success result) && negb (String.eqb (error_message result) "")
         then [("error_message", JString (error_message result))]
         else []))%list.

Section WithOS.

Context {World : Type}.
Variable os : Sys.OS World.
Variables now_at_start now_at_end : Z.

Definition main (parsed : option json) (w : World) : option json * Z * World :=
  match parsed with
  | None => (None, 1%Z, w)                      (* catch (json::parse_error) *)
  | Some j =>
      match string_member j "action" with
      | None => (None, 1%Z, w)
      | Some action =>
          let pattern := string_or_empty j "pattern" in
          let source := string_or_empty j "source" in
          let destination := string_or_empty j "destination" in
          match value_bool j "dry_run" with
          | Sys.Throws _ => (None, 1%Z, w)      (* catch (std::exception) *)
          | Sys.Returns dry_run =>
          match value_bool j "force" with
          | Sys.Throws _ => (None, 1%Z, w)
          | Sys.Returns force =>
          match value_bool j "recursive" with
          | Sys.Throws _ => (None, 1%Z, w)
          | Sys.Returns recursive =>
          match value_bool j "verbose" with
          | Sys.Throws _ => (None, 1%Z, w)
          | Sys.Returns verbose =>
              let cmd :=
                {| action := action; pattern := pattern; source := source;
                   destination := destination; dry_run := dry_run; force := force;
                   recursive := recursive; verbose := verbose |} in
              if negb (validate_command cmd) then (None, 1%Z, w)
              else
                let (result, w') := execute_command os now_at_start now_at_end cmd w in
                if dumps (output result)
                then (Some (output result), if success result then 0%Z else 1%Z, w')
                else (None, 1%Z, w')            (* catch (std::exception) *)
          end end end end
      end
  end.

End WithOS.

End program.

(** ** More definitions used to state properties *)

Module Spec2.

Import utils actions Json program.

(** The shape every result has: a success carries no [error_message]; a
    failure carries one and nothing else beyond [operation] and the
    times. *)
Definition well_shaped (r : FileOpResult) : Prop :=
  if success r then error_message r = ""
  else error_message r <> "" /\ message r = "" /\ errors r = [] /\
       files_scanned r = 0%Z /\ files_matched r = 0%Z /\ files_affected r = 0%Z.

(** The command [main] builds from an object. *)
Definition decoded (j : json) (cmd : Command) : Prop :=
  string_member j "action" = Some (action cmd) /\
  pattern cmd = string_or_empty j "pattern" /\
  source cmd = string_or_empty j "source" /\
  destination cmd = string_or_empty j "destination" /\
  value_bool j "dry_run" = Sys.Returns (dry_run cmd) /\
  value_bool j "force" = Sys.Returns (force cmd) /\
  value_bool j "recursive" = Sys.Returns (recursive cmd) /\
  value_bool j "verbose" = Sys.Returns (verbose cmd).

(** The member [key] of the object [main] printed. *)
Definition printed (out : option json) (key : string) : option json :=
  match out with
  | Some (JObject members) => Json.find key members
  | _ => None
  end.

(** A directory with a file whose name is Latin-1 ([caf\233.txt], not
    UTF-8), locked. *)
Definition latin1_world : MemFS.World :=
  [("/tmp", MemFS.Dir); ("/tmp/D", MemFS.Dir);
   ("/tmp/D/a.txt", MemFS.File false);
   ("/tmp/D/caf" ++ String (ascii_of_nat 233) ".txt", MemFS.File true);
   ("/tmp/out", MemFS.Dir)].

End Spec2.

(** * Properties *)

Import utils actions Spec.

(** ** Strings *)

Lemma contains_char_app (c : ascii) (s t : string) :
  Str.contains_char c (s ++ t) = Str.contains_char c s || Str.contains_char c t.
Proof.
  induction s as [|d s IH]; simpl; [reflexivity|].
  rewrite IH. now rewrite orb_assoc.
Qed.

Lemma prefix_app (t s : string) :
  String.prefix t s = true <-> exists rest, s = t ++ rest.
Proof.
  revert s. induction t as [|c t IH]; intros s; simpl.
  - split; [intros _; now exists s|intros _; destruct s; reflexivity].
  - destruct s as [|d s].
    + split; [discriminate|intros [rest H]; discriminate].
    + simpl. destruct (Ascii.ascii_dec c d) as [->|Hcd].
      * rewrite IH. split; intros [rest H]; exists rest.
        -- now rewrite H.
        -- now injection H.
      * split; [discriminate|intros [rest H]; injection H; intros; congruence].
Qed.

Lemma find_is_0_prefix (s t : string) : Str.find_is_0 s t = String.prefix t s.
Proof.
  unfold Str.find_is_0, Str.find.
  destruct s as [|c s].
  - destruct t; reflexivity.
  - cbn [String.index].
    destruct (String.prefix t (String c s)); [reflexivity|].
    destruct (index 0 t s); reflexivity.
Qed.

Lemma substring_app_exact (pre t : string) :
  substring (String.length pre) (String.length t) (pre ++ t) = t.
Proof.
  induction pre as [|c pre IH]; simpl.
  - induction t as [|d t IHt]; simpl; [reflexivity|now rewrite IHt].
  - exact IH.
Qed.

Lemma substring_split (n : nat) : forall s : string,
  (n <= String.length s)%nat ->
  s = substring 0 n s ++ substring n (String.length s - n) s.
Proof.
  induction n as [|n IH]; intros s Hn.
  - rewrite Nat.sub_0_r. simpl.
    assert (H0 : substring 0 0 s = "") by (destruct s; reflexivity).
    rewrite H0. simpl.
    clear. induction s as [|c s IHs]; simpl; [reflexivity|now rewrite <- IHs].
  - destruct s as [|c s]; simpl in *; [lia|].
    f_equal. apply IH. lia.
Qed.

Lemma string_length_app (s t : string) :
  String.length (s ++ t) = (String.length s + String.length t)%nat.
Proof. induction s as [|c s IH]; simpl; [reflexivity|now rewrite IH]. Qed.

Lemma ends_with_app (s t : string) :
  Str.ends_with s t = true <-> exists pre, s = pre ++ t.
Proof.
  unfold Str.ends_with. rewrite andb_true_iff, Nat.leb_le, String.eqb_eq. split.
  - intros [Hle Hsub].
    exists (substring 0 (String.length s - String.length t) s).
    assert (Hn : (String.length s - String.length t <= String.length s)%nat) by lia.
    pose proof (substring_split _ s Hn) as H.
    replace (String.length s - (String.length s - String.length t))%nat
      with (String.length t) in H by lia.
    now rewrite Hsub in H.
  - intros [pre ->]. rewrite string_length_app. split; [lia|].
    replace (String.length pre + String.length t - String.length t)%nat
      with (String.length pre) by lia.
    apply substring_app_exact.
Qed.

(** ** The glob translation always compiles *)

Lemma lex_escape_char (c : ascii) (rest : string) :
  Regex.lex (escape_char c ++ rest)
  = option_map (List.app (tokens_of c)) (Regex.lex rest).
Proof.
  destruct c as [[] [] [] [] [] [] [] []]; simpl;
    destruct (Regex.lex rest); reflexivity.
Qed.

Lemma lex_escape (s : string) : Regex.lex (escape s) = Some (tokens s).
Proof.
  induction s as [|c s IH]; simpl; [reflexivity|].
  now rewrite lex_escape_char, IH.
Qed.

Lemma tokens_head (s : string) :
  tokens s = [] \/ exists a ts, tokens s = Regex.TAtom a :: ts.
Proof.
  destruct s as [|c s]; simpl; [now left|right].
  unfold tokens_of. destruct (Ascii.eqb c "*"); [|destruct (Ascii.eqb c "?")];
    simpl; eauto.
Qed.

Lemma parse_tokens (s : string) : Regex.parse (tokens s) = Some (pieces s).
Proof.
  induction s as [|c s IH]; simpl; [reflexivity|].
  unfold tokens_of, piece_of.
  destruct (Ascii.eqb c "*").
  - simpl. now rewrite IH.
  - assert (H : forall a, Regex.parse (Regex.TAtom a :: tokens s)
                          = Some (Regex.One a :: pieces s)).
    { intros a. simpl. rewrite IH.
      destruct (tokens_head s) as [->|(b & ts & ->)]; reflexivity. }
    destruct (Ascii.eqb c "?"); apply H.
Qed.

Lemma regex_compile_glob (pattern : string) :
  Regex.regex_compile (glob_to_regex pattern)
  = Some (pieces (replace_double_star pattern)).
Proof.
  unfold Regex.regex_compile, glob_to_regex.
  rewrite lex_escape. apply parse_tokens.
Qed.

(** The expression built from a pattern is always in the fragment: in the
    model the [catch] of [matches_glob_pattern] is not entered. *)
Lemma matches_glob_pattern_regex (filename pattern : string) :
  matches_glob_pattern filename pattern
  = Regex.regex_match (pieces (replace_double_star pattern)) filename.
Proof.
  unfold matches_glob_pattern. now rewrite regex_compile_glob.
Qed.

(** ** Matching *)

Lemma tolower_line_terminator (c : ascii) :
  Regex.is_line_terminator (Str.tolower c) = Regex.is_line_terminator c.
Proof. destruct c as [[] [] [] [] [] [] [] []]; reflexivity. Qed.

Lemma tolower_is_slash (c : ascii) : Str.tolower c = "/"%char -> c = "/"%char.
Proof.
  destruct c as [[] [] [] [] [] [] [] []]; intros H; vm_compute in H;
    try discriminate H; reflexivity.
Qed.

Lemma tolower_is_dot (c : ascii) : Str.tolower c = "."%char -> c = "."%char.
Proof.
  destruct c as [[] [] [] [] [] [] [] []]; intros H; vm_compute in H;
    try discriminate H; reflexivity.
Qed.

Lemma atom_matches_lower (a : Regex.atom) (c d : ascii) :
  Str.tolower c = Str.tolower d -> Regex.atom_matches a c = Regex.atom_matches a d.
Proof.
  intros H. destruct a as [p|]; simpl.
  - now rewrite H.
  - now rewrite <- (tolower_line_terminator c), H, tolower_line_terminator.
Qed.

Lemma star_match_lower (a : Regex.atom) (k : string -> bool) :
  (forall s t, Str.lower s = Str.lower t -> k s = k t) ->
  forall s t, Str.lower s = Str.lower t ->
  Regex.star_match a k s = Regex.star_match a k t.
Proof.
  intros Hk. induction s as [|c s IH]; intros [|d t] H; simpl in H; try discriminate.
  - reflexivity.
  - injection H as Hc Hs. simpl.
    rewrite (Hk (String c s) (String d t)) by (simpl; congruence).
    now rewrite (atom_matches_lower a c d Hc), (IH t Hs).
Qed.

Lemma regex_match_lower (re : Regex.regex) :
  forall s t, Str.lower s = Str.lower t ->
  Regex.regex_match re s = Regex.regex_match re t.
Proof.
  induction re as [|[a|a] re IH]; intros s t H.
  - destruct s, t; simpl in *; congruence.
  - destruct s as [|c s], t as [|d t]; simpl in *; try congruence.
    injection H as Hc Hs.
    now rewrite (atom_matches_lower a c d Hc), (IH s t Hs).
  - simpl. now apply star_match_lower.
Qed.

Lemma star_match_split (a : Regex.atom) (k : string -> bool) (s : string) :
  Regex.star_match a k s = true ->
  exists pre suf, s = pre ++ suf /\ k suf = true.
Proof.
  induction s as [|c s IH]; simpl.
  - rewrite orb_false_r. intros H. now exists "", "".
  - intros H. apply orb_true_iff in H as [H|H].
    + now exists "", (String c s).
    + apply andb_true_iff in H as [_ H].
      destruct (IH H) as (pre & suf & -> & Hk).
      now exists (String c pre), suf.
Qed.

Lemma star_dot_iff (k : string -> bool) (s : string) :
  Regex.star_match Regex.Dot k s = true <->
  exists pre suf, s = pre ++ suf /\ single_line pre = true /\ k suf = true.
Proof.
  induction s as [|c s IH]; simpl.
  - rewrite orb_false_r. split.
    + intros H. now exists "", "".
    + intros (pre & suf & E & _ & Hk).
      destruct pre; [simpl in E; now subst|discriminate].
  - rewrite orb_true_iff, andb_true_iff, IH. split.
    + intros [H|[Hc (pre & suf & -> & Hp & Hk)]].
      * now exists "", (String c s).
      * exists (String c pre), suf. simpl. now rewrite Hc, Hp.
    + intros (pre & suf & E & Hp & Hk). destruct pre as [|d pre]; simpl in *.
      * left. now subst.
      * injection E as -> ->. apply andb_true_iff in Hp as [Hd Hp].
        right. split; [exact Hd|]. now exists pre, suf.
Qed.

Lemma regex_match_literal_app (lit : string) (re : Regex.regex) :
  forall s, Regex.regex_match (List.app (literal lit) re) s = true <->
  exists pre suf, s = pre ++ suf /\ Str.lower pre = Str.lower lit
                  /\ Regex.regex_match re suf = true.
Proof.
  induction lit as [|c lit IH]; intros s; simpl.
  - split.
    + intros H. now exists "", s.
    + intros (pre & suf & -> & Hp & H). destruct pre; [exact H|discriminate].
  - destruct s as [|d s].
    + split; [discriminate|].
      intros (pre & suf & E & Hp & _). destruct pre; discriminate.
    + rewrite andb_true_iff, IH, Ascii.eqb_eq. split.
      * intros [Hc (pre & suf & -> & Hp & H)].
        exists (String d pre), suf. simpl. now rewrite Hp, Hc.
      * intros (pre & suf & E & Hp & H). destruct pre as [|e pre]; [discriminate|].
        simpl in *. injection E as -> ->. injection Hp as Hc Hp.
        split; [congruence|]. now exists pre, suf.
Qed.

Lemma regex_match_literal (lit s : string) :
  Regex.regex_match (literal lit) s = true <-> Str.lower s = Str.lower lit.
Proof.
  rewrite <- (app_nil_r (literal lit)), regex_match_literal_app. split.
  - intros (pre & suf & -> & Hp & H). destruct suf; [|discriminate].
    clear H. rewrite <- Hp. f_equal.
    clear. induction pre as [|c pre IH]; simpl; [reflexivity|now rewrite IH].
  - intros H. exists s, "". repeat split; [|exact H].
    clear. induction s as [|c s IH]; simpl; [reflexivity|now rewrite <- IH].
Qed.

(** ** Patterns without wildcards *)

Lemma has_wildcard_cons (c : ascii) (s : string) :
  has_wildcard (String c s) = false ->
  Ascii.eqb c "*" = false /\ Ascii.eqb c "?" = false /\ has_wildcard s = false.
Proof.
  unfold has_wildcard. simpl. intros H.
  apply orb_false_iff in H as [H1 H2].
  apply orb_false_iff in H1 as [H1 H1'].
  apply orb_false_iff in H2 as [H2 H2'].
  now rewrite H1, H2, H1', H2'.
Qed.

Lemma pieces_literal (s : string) : has_wildcard s = false -> pieces s = literal s.
Proof.
  induction s as [|c s IH]; intros H; simpl; [reflexivity|].
  apply has_wildcard_cons in H as (H1 & H2 & H3).
  unfold piece_of. now rewrite H1, H2, (IH H3).
Qed.

Lemma pieces_app (s t : string) : pieces (s ++ t) = List.app (pieces s) (pieces t).
Proof. induction s as [|c s IH]; simpl; [reflexivity|now rewrite IH]. Qed.

Lemma replace_double_star_literal (s : string) :
  has_wildcard s = false -> replace_double_star s = s.
Proof.
  induction s as [|c s IH]; intros H; [reflexivity|].
  apply has_wildcard_cons in H as (H1 & _ & H3).
  simpl. rewrite H1. simpl. destruct s; [reflexivity|].
  now rewrite (IH H3).
Qed.

Lemma replace_double_star_prefix (s : string) :
  has_wildcard s = false -> replace_double_star (String "*" s) = String "*" s.
Proof.
  intros H. simpl. destruct s as [|d s]; [reflexivity|].
  pose proof (replace_double_star_literal _ H) as E.
  apply has_wildcard_cons in H as (H1 & _ & _).
  rewrite H1. now rewrite E.
Qed.

Lemma replace_double_star_suffix (s : string) :
  has_wildcard s = false -> replace_double_star (s ++ "*") = s ++ "*".
Proof.
  induction s as [|c s IH]; intros H; [reflexivity|].
  apply has_wildcard_cons in H as (H1 & _ & H3).
  change (String c s ++ "*") with (String c (s ++ "*")).
  cbn [replace_double_star]. rewrite H1. simpl.
  rewrite (IH H3). destruct s; reflexivity.
Qed.

Lemma glob_star_prefix (f s : string) :
  has_wildcard s = false ->
  (matches_glob_pattern f (String "*" s) = true <->
   exists pre suf, f = pre ++ suf /\ single_line pre = true
                   /\ Str.lower suf = Str.lower s).
Proof.
  intros H. rewrite matches_glob_pattern_regex, (replace_double_star_prefix _ H).
  cbn [pieces]. rewrite (pieces_literal _ H).
  change (piece_of "*") with (Regex.Star Regex.Dot).
  cbn [Regex.regex_match]. rewrite star_dot_iff.
  split; intros (pre & suf & E & Hp & Hs); exists pre, suf; repeat split; auto;
    now apply regex_match_literal.
Qed.

Lemma glob_star_suffix (f s : string) :
  has_wildcard s = false ->
  (matches_glob_pattern f (s ++ "*") = true <->
   exists pre suf, f = pre ++ suf /\ Str.lower pre = Str.lower s
                   /\ single_line suf = true).
Proof.
  intros H. rewrite matches_glob_pattern_regex, (replace_double_star_suffix _ H).
  rewrite pieces_app, (pieces_literal _ H), regex_match_literal_app.
  change (pieces "*") with [Regex.Star Regex.Dot].
  assert (Hstar : forall suf,
    Regex.regex_match [Regex.Star Regex.Dot] suf = true <-> single_line suf = true).
  { intros suf. cbn [Regex.regex_match]. rewrite star_dot_iff. split.
    - intros (p & q & -> & Hp & Hq). destruct q; [|discriminate].
      clear Hq. induction p as [|c p IHp]; simpl in *; [reflexivity|].
      apply andb_true_iff in Hp as [Hc Hp]. now rewrite Hc, (IHp Hp).
    - intros Hs. exists suf, "". repeat split; [|exact Hs].
      clear. induction suf as [|c t IHt]; simpl; [reflexivity|now rewrite <- IHt]. }
  split; intros (pre & suf & E & Hp & Hs); exists pre, suf; repeat split; auto;
    now apply Hstar.
Qed.

(** ** The pattern matcher *)

(** C1 (the code at the failing input).  For the pattern [**/*.png] the
    translation produces the expression [\..*/.*\.png]: the [.*] written
    for [**] is escaped again by the loop that follows, so [**] stands for
    a literal dot followed by anything.  The filename [photo.png] is
    rejected, so is [sub/photo.png]; only filenames that begin with a dot
    can match. *)
Theorem glob_double_star_png_rejects_png :
  glob_to_regex "**/*.png" = "\..*/.*\.png" /\
  matches_glob_pattern "photo.png" "**/*.png" = false /\
  matches_glob_pattern "sub/photo.png" "**/*.png" = false /\
  matches_glob_pattern ".sub/photo.png" "**/*.png" = true /\
  (forall filename, matches_glob_pattern filename "**/*.png" = true ->
     exists rest, filename = String "." rest).
Proof.
  repeat split; try reflexivity.
  intros filename. rewrite matches_glob_pattern_regex.
  remember (pieces (replace_double_star "**/*.png")) as re eqn:E.
  vm_compute in E. subst re.
  destruct filename as [|c rest]; cbn [Regex.regex_match]; [discriminate|].
  intros H. apply andb_true_iff in H as [H _].
  unfold Regex.atom_matches in H.
  apply Ascii.eqb_eq in H. symmetry in H.
  apply tolower_is_dot in H. subst c. now exists rest.
Qed.

Lemma replace_double_star_id (s : string) :
  has_double_star s = false -> replace_double_star s = s.
Proof.
  induction s as [|c rest IH]; intros H; [reflexivity|].
  cbn [replace_double_star]. destruct rest as [|d rest']; [reflexivity|].
  cbn [has_double_star] in H. apply orb_false_iff in H as [Hcd Hrest].
  rewrite Hcd. f_equal. exact (IH Hrest).
Qed.

Lemma glob_star_iff (p : string) :
  (forall s, Regex.regex_match (pieces p) s = true <-> glob within_line p s) ->
  forall s, Regex.star_match Regex.Dot (Regex.regex_match (pieces p)) s = true
            <-> glob within_line (String "*" p) s.
Proof.
  intros IHp. induction s as [|c s IHs]; cbn [Regex.star_match].
  - rewrite orb_false_r, IHp. split.
    + apply glob_star_none.
    + intros H. inversion H; subst; try assumption; congruence.
  - rewrite orb_true_iff, andb_true_iff, IHp, IHs. split.
    + intros [H|[Hc H]]; [now apply glob_star_none|now apply glob_star_more].
    + intros H. inversion H; subst; try (now left); try (right; now split); congruence.
Qed.

(** The compiled pattern matches exactly what the glob within lines
    matches. *)
Lemma regex_match_pieces_glob (p : string) :
  forall s, Regex.regex_match (pieces p) s = true <-> glob within_line p s.
Proof.
  induction p as [|x p IH]; intros s.
  - cbn [pieces Regex.regex_match]. split.
    + destruct s; [intros _; apply glob_end|discriminate].
    + intros H. inversion H; subst. reflexivity.
  - cbn [pieces]. unfold piece_of.
    destruct (Ascii.eqb x "*") eqn:Estar.
    { apply Ascii.eqb_eq in Estar. subst x. cbn [Regex.regex_match].
      now apply glob_star_iff. }
    destruct (Ascii.eqb x "?") eqn:Eq.
    { apply Ascii.eqb_eq in Eq. subst x. cbn [Regex.regex_match]. split.
      - destruct s as [|c s]; [discriminate|]. intros H.
        apply andb_true_iff in H as [Hc H]. apply glob_one; [exact Hc|now apply IH].
      - intros H. inversion H; subst; try congruence.
        apply andb_true_iff. split; [assumption|now apply IH]. }
    apply Ascii.eqb_neq in Estar, Eq. cbn [Regex.regex_match]. split.
    + destruct s as [|c s]; [discriminate|]. intros H.
      apply andb_true_iff in H as [Hc H]. cbn [Regex.atom_matches] in Hc.
      apply Ascii.eqb_eq in Hc. apply glob_char; auto. now apply IH.
    + intros H. inversion H; subst; try congruence.
      apply andb_true_iff. split; [|now apply IH].
      cbn [Regex.atom_matches]. now apply Ascii.eqb_eq.
Qed.

(** C4, as the code has it.  [matches_pattern] dispatches on the pattern:
    empty, glob, extension, exact.  For a pattern without [**] the glob is
    the glob of the specification, matched without regard to case against
    the whole filename, except that a wildcard never stands for a line
    terminator: [*] is any run of other characters, [?] exactly one of
    them.  (What [**] does is left to C1.) *)
Theorem matches_pattern_dispatch :
  (forall filename, matches_pattern filename "" = true) /\
  (forall filename pattern, has_wildcard pattern = true ->
     matches_pattern filename pattern = matches_glob_pattern filename pattern) /\
  (forall filename pattern, has_wildcard pattern = true ->
     has_double_star pattern = false ->
     (matches_pattern filename pattern = true <-> glob within_line pattern filename)) /\
  (forall filename rest, has_wildcard (String "." rest) = false ->
     (matches_pattern filename (String "." rest) = true <->
      exists pre, filename = pre ++ String "." rest)) /\
  (forall filename c rest, has_wildcard (String c rest) = false -> c <> "."%char ->
     (matches_pattern filename (String c rest) = true <-> filename = String c rest)) /\
  (forall f g pattern, Str.lower f = Str.lower g ->
     matches_glob_pattern f pattern = matches_glob_pattern g pattern) /\
  matches_pattern "a.txt" "*.txt" = true /\
  matches_pattern "A.TXT" "*.txt" = true /\
  matches_pattern "a.txtx" "*.txt" = false /\
  matches_pattern "a.tx" "*.txt" = false.
Proof.
  assert (Hdispatch : forall filename pattern, has_wildcard pattern = true ->
            matches_pattern filename pattern = matches_glob_pattern filename pattern).
  { intros filename [|c rest] H; [discriminate|].
    unfold matches_pattern. fold (has_wildcard (String c rest)). now rewrite H. }
  split; [reflexivity|].
  split; [exact Hdispatch|].
  split.
  { intros filename pattern Hw Hss.
    rewrite (Hdispatch _ _ Hw), matches_glob_pattern_regex,
      (replace_double_star_id _ Hss).
    apply regex_match_pieces_glob. }
  split.
  { intros filename rest H. unfold matches_pattern.
    fold (has_wildcard (String "." rest)). rewrite H.
    change (Ascii.eqb "." ".") with true. cbv iota. apply ends_with_app. }
  split.
  { intros filename c rest H Hc. unfold matches_pattern.
    fold (has_wildcard (String c rest)). rewrite H.
    destruct (Ascii.eqb c ".") eqn:E; [apply Ascii.eqb_eq in E; contradiction|].
    apply String.eqb_eq. }
  split.
  { intros f g pattern H. rewrite !matches_glob_pattern_regex.
    now apply regex_match_lower. }
  repeat split; reflexivity.
Qed.

(** The filename [a<LF>b.txt] ends in [.txt] and the glob of the
    specification accepts it for [*.txt], the star standing for the three
    characters before the dot; the code answers false, the [.] of the
    expression [.*\.txt] matching no line feed. *)
Lemma glob_stops_at_line_terminator : ~ dispatch_as_claimed.
Proof.
  intros (_ & H & _).
  specialize (H (String "a" (String "010" "b.txt")) "*.txt" eq_refl).
  assert (Hglob : glob any_character "*.txt" (String "a" (String "010" "b.txt"))).
  { do 3 (apply glob_star_more; [reflexivity|]). apply glob_star_none.
    repeat (apply glob_char; [discriminate|discriminate|reflexivity|]).
    apply glob_end. }
  apply H in Hglob. vm_compute in Hglob. discriminate Hglob.
Qed.

(** ** Directory safety *)

Lemma is_system_directory_prefix (path : Path.path) :
  is_system_directory path = true <->
  exists sys_dir rest, In sys_dir system_dirs /\ path = sys_dir ++ rest.
Proof.
  unfold is_system_directory. rewrite existsb_exists. split.
  - intros (d & Hin & H). rewrite find_is_0_prefix in H.
    apply prefix_app in H as [rest H]. now exists d, rest.
  - intros (d & rest & Hin & H). exists d. split; [exact Hin|].
    rewrite find_is_0_prefix. apply prefix_app. now exists rest.
Qed.

Lemma all_seps_drop (s : string) : Path.all_seps s = true <-> Path.drop_seps s = "".
Proof.
  induction s as [|c s IH]; simpl; [tauto|].
  destruct (Path.is_sep c); simpl; [exact IH|]. split; discriminate.
Qed.

Lemma rel_elements_cons (s cur : string) : Path.rel_elements cur s <> [].
Proof.
  revert cur. induction s as [|c s IH]; intros cur; simpl; [discriminate|].
  destruct (Path.is_sep c); [|apply IH].
  destruct s as [|d s]; [discriminate|].
  destruct (Path.is_sep d); [apply IH|discriminate].
Qed.

Lemma rel_elements_single (s : string) : forall cur x,
  Path.rel_elements cur s = [x] ->
  Str.contains_char "/" s = false /\ x = cur ++ s.
Proof.
  induction s as [|c s IH]; intros cur x H; simpl in H.
  - injection H as <-. split; [reflexivity|].
    clear. induction cur as [|c cur IHc]; simpl; [reflexivity|now rewrite <- IHc].
  - unfold Path.is_sep in H. simpl. destruct (Ascii.eqb c "/") eqn:Ec.
    + exfalso. destruct s as [|d s]; [discriminate|].
      destruct (Ascii.eqb d "/") eqn:Ed.
      * apply IH in H as [H _]. simpl in H. now rewrite Ed in H.
      * injection H as _ H. exact (rel_elements_cons (String d s) "" H).
    + apply IH in H as [H ->]. split; [exact H|].
      clear. induction cur as [|e cur IHc]; simpl; [reflexivity|now rewrite IHc].
Qed.

Lemma list_eqb_eq (l1 l2 : list string) : Path.list_eqb l1 l2 = true <-> l1 = l2.
Proof.
  revert l2. induction l1 as [|x l1 IH]; intros [|y l2]; simpl;
    try (split; [discriminate|discriminate]); [tauto|].
  rewrite andb_true_iff, String.eqb_eq, IH. split.
  - intros [-> ->]. reflexivity.
  - intros H. injection H as -> ->. tauto.
Qed.

(** A path equals [/] when it is one or more separators. *)
Lemma path_eq_root (path : Path.path) :
  Path.path_eq path "/" = true <-> path <> "" /\ Path.all_seps path = true.
Proof.
  unfold Path.path_eq. rewrite andb_true_iff, list_eqb_eq.
  change (Path.elements "/") with (@nil string).
  change (Path.has_root_directory "/") with true.
  unfold Path.elements. split.
  - intros [Hr He]. destruct path as [|c s]; [discriminate|].
    split; [discriminate|]. apply all_seps_drop.
    destruct (Path.drop_seps (String c s)) eqn:E; [reflexivity|].
    now apply rel_elements_cons in He.
  - intros [Hne Hs]. destruct path as [|c s]; [contradiction|].
    pose proof Hs as Hd. apply all_seps_drop in Hd. rewrite Hd.
    simpl in Hs. apply andb_true_iff in Hs as [Hc _]. simpl. now rewrite Hc.
Qed.

(** A path equals a relative, one-element path when it is that string. *)
Lemma path_eq_single (path name : string) :
  Path.has_root_directory name = false -> Path.elements name = [name] ->
  (Path.path_eq path name = true <-> path = name).
Proof.
  intros Hr He. unfold Path.path_eq. rewrite andb_true_iff, list_eqb_eq, Hr, He.
  split.
  - intros [Hp H]. apply Bool.eqb_prop in Hp.
    unfold Path.elements in H.
    assert (Hd : Path.drop_seps path = path).
    { destruct path as [|c s]; [reflexivity|]. simpl in *. now rewrite Hp. }
    rewrite Hd in H. destruct path as [|c s]; [discriminate|].
    now apply rel_elements_single in H as [_ ->].
  - intros ->. now rewrite Hr, He.
Qed.

(** C5.  [is_safe_directory] is false exactly on the root directories the
    code lists and on the paths that begin with a system directory, and
    true on every other path. *)
Theorem is_safe_directory_spec :
  (forall path, is_safe_directory path = false <->
     (exists root, In root root_directories /\ Path.path_eq path root = true)
     \/ (exists sys_dir rest, In sys_dir system_dirs /\ path = sys_dir ++ rest)) /\
  (forall path, is_safe_directory path = false <->
     (path <> "" /\ Path.all_seps path = true) \/ path = "C:\" \/ path = "D:\"
     \/ (exists sys_dir rest, In sys_dir system_dirs /\ path = sys_dir ++ rest)) /\
  (forall path, is_safe_directory path = true <->
     ~ ((exists root, In root root_directories /\ Path.path_eq path root = true)
        \/ (exists sys_dir rest, In sys_dir system_dirs /\ path = sys_dir ++ rest))) /\
  is_safe_directory "/" = false /\
  is_safe_directory "/bin" = false /\
  is_safe_directory "/usr/local" = false /\
  is_safe_directory "/usrlocal" = false /\
  is_safe_directory "/home/user" = true /\
  is_safe_directory "/tmp" = true.
Proof.
  assert (H1 : forall path, is_safe_directory path = false <->
     (exists root, In root root_directories /\ Path.path_eq path root = true)
     \/ (exists sys_dir rest, In sys_dir system_dirs /\ path = sys_dir ++ rest)).
  { intros path. rewrite <- is_system_directory_prefix. unfold is_safe_directory.
    destruct (Path.path_eq path "/") eqn:E1; simpl.
    { split; [intros _|reflexivity]. left. exists "/". simpl. tauto. }
    destruct (Path.path_eq path "C:\") eqn:E2; simpl.
    { split; [intros _|reflexivity]. left. exists "C:\". simpl. tauto. }
    destruct (Path.path_eq path "D:\") eqn:E3; simpl.
    { split; [intros _|reflexivity]. left. exists "D:\". simpl. tauto. }
    destruct (is_system_directory path); split; try tauto; try discriminate.
    intros [(root & Hin & H)|H]; [|discriminate].
    simpl in Hin. destruct Hin as [<-|[<-|[<-|[]]]]; congruence. }
  split; [exact H1|]. split.
  { intros path. rewrite H1, <- path_eq_root.
    rewrite <- (path_eq_single path "C:\" eq_refl eq_refl).
    rewrite <- (path_eq_single path "D:\" eq_refl eq_refl).
    split.
    - intros [(root & Hin & H)|H]; [|tauto].
      simpl in Hin. destruct Hin as [<-|[<-|[<-|[]]]]; tauto.
    - intros [H|[H|[H|H]]]; [left; exists "/"|left; exists "C:\"|left; exists "D:\"|now right];
        simpl; tauto. }
  split.
  { intros path. rewrite <- H1. destruct (is_safe_directory path); split; congruence. }
  repeat split; reflexivity.
Qed.

(** ** Validation *)

Lemma eqb_empty (s : string) : negb (String.eqb s "") = true <-> s <> "".
Proof.
  rewrite negb_true_iff. destruct (String.eqb_spec s ""); split; congruence.
Qed.

Lemma validate_command_well_formed (cmd : Command) :
  validate_command cmd = true <-> well_formed cmd.
Proof.
  unfold validate_command, well_formed.
  destruct (action cmd) as [|c a] eqn:Ea.
  { split; [discriminate|]. intros [[[H|H] _]|[[H _]|[H _]]]; discriminate. }
  rewrite <- Ea. clear Ea c a.
  destruct (String.eqb_spec (action cmd) "move") as [E|Nm]; simpl.
  { rewrite andb_true_iff, !eqb_empty. split; [tauto|].
    intros [H|[[H _]|[H _]]]; [tauto|congruence|congruence]. }
  destruct (String.eqb_spec (action cmd) "copy") as [E|Nc]; simpl.
  { rewrite andb_true_iff, !eqb_empty. split; [tauto|].
    intros [H|[[H _]|[H _]]]; [tauto|congruence|congruence]. }
  destruct (String.eqb_spec (action cmd) "delete") as [E|Nd].
  { rewrite eqb_empty. split; [tauto|].
    intros [[[H|H] _]|[[_ H]|[H _]]]; [congruence|congruence|tauto|congruence]. }
  destruct (String.eqb_spec (action cmd) "create_folder") as [E|Nf].
  { rewrite eqb_empty. split; [tauto|].
    intros [[[H|H] _]|[[H _]|[_ H]]]; [congruence|congruence|congruence|tauto]. }
  split; [discriminate|]. tauto.
Qed.

(** C6.  [validate_command] accepts exactly the well-formed commands, and
    [execute_command] answers a rejected command with [success = false],
    [error_message = "Invalid command"] and every other field as a fresh
    result has it, without touching the file system. *)
Theorem validate_command_spec :
  (forall cmd, validate_command cmd = true <-> well_formed cmd) /\
  (forall (World : Type) (os : Sys.OS World) (t0 t1 : Z) (cmd : Command) (w : World),
     validate_command cmd = false ->
     execute_command os t0 t1 cmd w = (invalid_command_result, w)).
Proof.
  split; [exact validate_command_well_formed|].
  intros World os t0 t1 cmd w H. unfold execute_command. now rewrite H.
Qed.

(** ** The filter looks at the filename only *)

Lemma filename_no_sep (p : Path.path) : Str.contains_char "/" (Path.filename p) = false.
Proof.
  induction p as [|c p IH]; [reflexivity|].
  cbn [Path.filename].
  destruct (Str.contains_char "/" (String c p)) eqn:E; [exact IH|exact E].
Qed.

Lemma replace_double_star_sep (s : string) :
  Str.contains_char "/" (replace_double_star s) = Str.contains_char "/" s.
Proof.
  enough (H : Str.contains_char "/" (replace_double_star s) = Str.contains_char "/" s
              /\ forall c, Str.contains_char "/" (replace_double_star (String c s))
                           = Str.contains_char "/" (String c s)) by apply H.
  induction s as [|d s [IH1 IH2]].
  - split; [reflexivity|]. intros c. reflexivity.
  - split; [apply IH2|]. intros c.
    cbn [replace_double_star].
    destruct (Ascii.eqb c "*" && Ascii.eqb d "*") eqn:E.
    + apply andb_true_iff in E as [Ec Ed].
      apply Ascii.eqb_eq in Ec, Ed. subst c d.
      cbn [Str.contains_char]. rewrite IH1. reflexivity.
    + cbn [Str.contains_char]. f_equal. apply IH2.
Qed.

Lemma pieces_sep (s : string) :
  Str.contains_char "/" s = true -> In (Regex.One (Regex.Chr "/")) (pieces s).
Proof.
  induction s as [|c s IH]; simpl; [discriminate|].
  intros H. apply orb_true_iff in H as [H|H].
  - left. apply Ascii.eqb_eq in H. now subst c.
  - right. now apply IH.
Qed.

Lemma regex_match_needs_sep (re : Regex.regex) :
  In (Regex.One (Regex.Chr "/")) re ->
  forall s, Regex.regex_match re s = true -> Str.contains_char "/" s = true.
Proof.
  induction re as [|[a|a] re IH]; intros Hin s H.
  - destruct Hin.
  - destruct s as [|c s]; [discriminate|].
    cbn [Regex.regex_match] in H. apply andb_true_iff in H as [Hc H].
    cbn [Str.contains_char]. apply orb_true_iff.
    destruct Hin as [E|Hin].
    + left. injection E as ->. unfold Regex.atom_matches in Hc.
      apply Ascii.eqb_eq in Hc. symmetry in Hc.
      apply tolower_is_slash in Hc. subst c. reflexivity.
    + right. now apply IH.
  - destruct Hin as [E|Hin]; [discriminate|].
    cbn [Regex.regex_match] in H.
    apply star_match_split in H as (pre & suf & -> & H).
    rewrite contains_char_app, (IH Hin suf H). apply orb_true_r.
Qed.

Lemma matches_pattern_filename_sep (file : Path.path) (pattern : string) :
  Str.contains_char "/" pattern = true ->
  matches_pattern (Path.filename file) pattern = false.
Proof.
  intros Hp. pose proof (filename_no_sep file) as Hf.
  destruct (matches_pattern (Path.filename file) pattern) eqn:E; [exfalso|reflexivity].
  destruct pattern as [|c0 rest]; [discriminate|].
  unfold matches_pattern in E.
  destruct (Str.contains_char "*" (String c0 rest) || Str.contains_char "?" (String c0 rest)).
  - rewrite matches_glob_pattern_regex in E.
    apply regex_match_needs_sep in E; [congruence|].
    apply pieces_sep. now rewrite replace_double_star_sep.
  - destruct (Ascii.eqb c0 ".").
    + apply ends_with_app in E as [pre E]. rewrite E, contains_char_app, Hp in Hf.
      now rewrite orb_true_r in Hf.
    + apply String.eqb_eq in E. congruence.
Qed.

Lemma matching_sep (pattern : string) (files : list Path.path) :
  Str.contains_char "/" pattern = true -> matching pattern files = [].
Proof.
  intros H. unfold matching. induction files as [|f files IH]; simpl; [reflexivity|].
  now rewrite (matches_pattern_filename_sep f pattern H).
Qed.

(** C9.  In the three batch handlers the filter looks at the filename
    component of each scanned path and at nothing else: the files kept are,
    in scan order, those whose [filename()] matches the pattern, so two
    scanned paths with the same filename are kept or dropped together, and
    [files_matched] counts them.  A filename holds no separator, so a
    pattern that holds one keeps no file. *)
Theorem pattern_filter_uses_filename
    (World : Type) (os : Sys.OS World) (t0 t1 : Z) (cmd : Command) (w : World)
    (files : list Path.path) :
  is_safe_directory (expand_path os (source cmd)) = true ->
  scan os cmd w (expand_path os (source cmd)) = Sys.Returns files ->
  let kept :=
    filter (fun file => matches_pattern (Path.filename file) (pattern cmd)) files in
  matching (pattern cmd) files = kept /\
  (forall file,
     In file kept <->
     In file files /\ matches_pattern (Path.filename file) (pattern cmd) = true) /\
  (forall file file', In file files -> In file' files ->
     Path.filename file = Path.filename file' -> (In file kept <-> In file' kept)) /\
  (is_safe_directory (expand_path os (destination cmd)) = true ->
     files_scanned (fst (move_files os t0 t1 cmd w)) = size files /\
     files_matched (fst (move_files os t0 t1 cmd w)) = size kept /\
     files_scanned (fst (copy_files os t0 t1 cmd w)) = size files /\
     files_matched (fst (copy_files os t0 t1 cmd w)) = size kept) /\
  (files_scanned (fst (delete_files os t0 t1 cmd w)) = size files /\
   files_matched (fst (delete_files os t0 t1 cmd w)) = size kept) /\
  (Str.contains_char "/" (pattern cmd) = true ->
     kept = [] /\
     forall file, matches_pattern (Path.filename file) (pattern cmd) = false).
Proof.
  intros Hsrc Hscan kept.
  assert (Hin : forall file,
            In file kept <->
            In file files /\ matches_pattern (Path.filename file) (pattern cmd) = true).
  { intros file. unfold kept. rewrite filter_In. tauto. }
  split; [reflexivity|]. split; [exact Hin|]. split.
  { intros file file' Hf Hf' E. rewrite !Hin, E. tauto. }
  split; [intros Hdst; split; [|split; [|split]]|split; [split|]].
  - unfold move_files. rewrite Hsrc, Hdst, Hscan. cbv zeta. cbn [negb].
    destruct (dry_run cmd); [reflexivity|].
    destruct (for_each_file _ _ _ _ _ _) as [[count errs] w']. reflexivity.
  - unfold move_files. rewrite Hsrc, Hdst, Hscan. cbv zeta. cbn [negb].
    destruct (dry_run cmd); [reflexivity|].
    destruct (for_each_file _ _ _ _ _ _) as [[count errs] w']. reflexivity.
  - unfold copy_files. rewrite Hsrc, Hdst, Hscan. cbv zeta. cbn [negb].
    destruct (dry_run cmd); [reflexivity|].
    destruct (for_each_file _ _ _ _ _ _) as [[count errs] w']. reflexivity.
  - unfold copy_files. rewrite Hsrc, Hdst, Hscan. cbv zeta. cbn [negb].
    destruct (dry_run cmd); [reflexivity|].
    destruct (for_each_file _ _ _ _ _ _) as [[count errs] w']. reflexivity.
  - unfold delete_files. rewrite Hsrc, Hscan. cbv zeta. cbn [negb].
    destruct (dry_run cmd); [reflexivity|].
    destruct (for_each_file _ _ _ _ _ _) as [[count errs] w']. reflexivity.
  - unfold delete_files. rewrite Hsrc, Hscan. cbv zeta. cbn [negb].
    destruct (dry_run cmd); [reflexivity|].
    destruct (for_each_file _ _ _ _ _ _) as [[count errs] w']. reflexivity.
  - intros Hp. split.
    + exact (matching_sep (pattern cmd) files Hp).
    + intros file. now apply matches_pattern_filename_sep.
Qed.

(** ** Safety checks come first *)

(** C3.  When the expanded source or destination of a move or copy is
    unsafe, the handler stops at the check: the file system is returned as
    it was, [success] is false, [error_message] is not empty, the three
    counters are 0 and [errors] is empty; no operation of the file system
    has a say in the result. *)
Theorem unsafe_directory_aborts
    (World : Type) (os : Sys.OS World) (t0 t1 : Z) (cmd : Command) (w : World) :
  is_safe_directory (expand_path os (source cmd)) = false
  \/ is_safe_directory (expand_path os (destination cmd)) = false ->
  forall handler op, In (handler, op) [(@move_files World, "move"); (@copy_files World, "copy")] ->
    let out := handler os t0 t1 cmd w in
    snd out = w /\
    success (fst out) = false /\
    error_message (fst out) <> "" /\
    files_scanned (fst out) = 0%Z /\
    files_matched (fst out) = 0%Z /\
    files_affected (fst out) = 0%Z /\
    errors (fst out) = [] /\
    (exists msg, fst out = aborted op t0 msg) /\
    (forall (os2 : Sys.OS World) (w2 : World),
       Sys.getenv_HOME os2 = Sys.getenv_HOME os ->
       fst (handler os2 t0 t1 cmd w2) = fst out).
Proof.
  intros Hunsafe handler op Hin.
  assert (Hexp : forall (os2 : Sys.OS World) s,
            Sys.getenv_HOME os2 = Sys.getenv_HOME os ->
            expand_path os2 s = expand_path os s).
  { intros os2 s E. unfold expand_path. now rewrite E. }
  destruct Hin as [E|[E|[]]]; injection E as <- <-; cbv zeta.
  - unfold move_files.
    destruct (is_safe_directory (expand_path os (source cmd))) eqn:Es; simpl.
    + destruct Hunsafe as [H|H]; [discriminate|]. rewrite H. simpl.
      repeat split; try discriminate; [eexists; reflexivity|].
      intros os2 w2 E. rewrite !(Hexp os2 _ E), Es, H. reflexivity.
    + repeat split; try discriminate; [eexists; reflexivity|].
      intros os2 w2 E. rewrite !(Hexp os2 _ E), Es. reflexivity.
  - unfold copy_files.
    destruct (is_safe_directory (expand_path os (source cmd))) eqn:Es; simpl.
    + destruct Hunsafe as [H|H]; [discriminate|]. rewrite H. simpl.
      repeat split; try discriminate; [eexists; reflexivity|].
      intros os2 w2 E. rewrite !(Hexp os2 _ E), Es, H. reflexivity.
    + repeat split; try discriminate; [eexists; reflexivity|].
      intros os2 w2 E. rewrite !(Hexp os2 _ E), Es. reflexivity.
Qed.

(** ** The batch loop *)

Lemma int_incr_small (count : Z) :
  (0 <= count < INT_MAX)%Z -> int_incr count = (count + 1)%Z.
Proof.
  unfold int_incr, int_wrap, INT_MAX. intros H.
  rewrite Z.mod_small; lia.
Qed.

Lemma size_t_of_int_small (count : Z) :
  (0 <= count <= INT_MAX)%Z -> size_t_of_int count = count.
Proof.
  unfold size_t_of_int, INT_MAX. intros H. apply Z.mod_small. lia.
Qed.

Lemma size_cons {A : Type} (x : A) (l : list A) : size (x :: l) = (1 + size l)%Z.
Proof. unfold size. cbn [List.length]. lia. Qed.

Lemma size_nonneg {A : Type} (l : list A) : (0 <= size l)%Z.
Proof. unfold size. lia. Qed.

Lemma attempts_files {World : Type} (attempt : World -> Path.path -> World * Sys.thrown) :
  forall files w, map fst (fst (attempts attempt files w)) = files.
Proof.
  induction files as [|f files IH]; intros w; simpl; [reflexivity|].
  destruct (attempt w f) as [w' t]. specialize (IH w').
  destruct (attempts attempt files w') as [l w'']. simpl in *. now rewrite IH.
Qed.

Lemma trace_partition (failed : string) (trace : list (Path.path * Sys.thrown)) :
  (size (succeeded trace) + size (failures failed trace))%Z = size trace.
Proof.
  induction trace as [|[f [what|]] trace IH]; [reflexivity| |].
  - change (succeeded ((f, Some what) :: trace)) with (succeeded trace).
    change (failures failed ((f, Some what) :: trace))
      with ((failed ++ f ++ ": " ++ what) :: failures failed trace).
    rewrite !size_cons. lia.
  - change (succeeded ((f, None) :: trace)) with (f :: succeeded trace).
    change (failures failed ((f, None) :: trace)) with (failures failed trace).
    rewrite !size_cons. lia.
Qed.

Lemma for_each_file_attempts {World : Type}
    (attempt : World -> Path.path -> World * Sys.thrown) (failed : string) :
  forall files count errs w,
    (0 <= count)%Z -> (count + size files <= INT_MAX)%Z ->
    for_each_file attempt failed files count errs w
    = (let (trace, w_end) := attempts attempt files w in
       ((count + size (succeeded trace))%Z,
        (errs ++ failures failed trace)%list, w_end)).
Proof.
  induction files as [|f files IH]; intros count errs w H0 Hmax.
  - simpl. now rewrite Z.add_0_r, app_nil_r.
  - rewrite size_cons in Hmax. pose proof (size_nonneg files) as Hs.
    cbn [for_each_file attempts].
    destruct (attempt w f) as [w' [what|]].
    + rewrite IH by lia.
      destruct (attempts attempt files w') as [trace w_end].
      change (succeeded ((f, Some what) :: trace)) with (succeeded trace).
      change (failures failed ((f, Some what) :: trace))
        with ((failed ++ f ++ ": " ++ what) :: failures failed trace).
      now rewrite <- app_assoc.
    + rewrite int_incr_small by lia. rewrite IH by lia.
      destruct (attempts attempt files w') as [trace w_end].
      change (succeeded ((f, None) :: trace)) with (f :: succeeded trace).
      change (failures failed ((f, None) :: trace)) with (failures failed trace).
      rewrite size_cons. f_equal. f_equal. lia.
Qed.

Lemma batch_result_intro {World : Type}
    (attempt : World -> Path.path -> World * Sys.thrown) (failed : string)
    (files : list Path.path) (w : World) (r : FileOpResult)
    (rest : Z -> FileOpResult -> FileOpResult) :
  (size files <= INT_MAX)%Z ->
  (forall n x, success (rest n x) = true) ->
  (forall n x, error_message (rest n x) = error_message x) ->
  (forall n x, files_matched (rest n x) = files_matched x) ->
  (forall n x, files_affected (rest n x) = files_affected x) ->
  (forall n x, errors (rest n x) = errors x) ->
  error_message r = "" -> files_matched r = size files -> errors r = [] ->
  batch_result attempt failed files w
    (let '(count, errs, w') := for_each_file attempt failed files 0 (errors r) w in
     (rest count (set_files_affected (size_t_of_int count) (set_errors errs r)), w')).
Proof.
  intros Hmax Hs He Hm Ha Hr Er Em Ee.
  rewrite for_each_file_attempts by (simpl; lia).
  unfold batch_result.
  pose proof (attempts_files attempt files w) as Hf.
  destruct (attempts attempt files w) as [trace w_end]. simpl in Hf.
  pose proof (trace_partition failed trace) as Hp.
  assert (Hlen : size trace = size files).
  { unfold size. now rewrite <- Hf, length_map. }
  pose proof (size_nonneg (succeeded trace)).
  pose proof (size_nonneg (failures failed trace)).
  cbn [fst snd]. rewrite Hs, He, Hm, Ha, Hr, Ee. cbn.
  rewrite size_t_of_int_small by lia.
  repeat split; auto. lia.
Qed.

(** C2.  A batch that is not a dry run attempts every matched file in scan
    order; each failed attempt adds one error naming the file and its
    cause, each other attempt counts into [files_affected]; the handler
    reports [success = true], and [files_affected] plus the number of
    errors is [files_matched].  (The count of the source is an [int]: the
    batch holds at most [INT_MAX] files.) *)
Theorem batch_partial_failure
    (World : Type) (os : Sys.OS World) (t0 t1 : Z) (cmd : Command) (w : World)
    (files : list Path.path) :
  dry_run cmd = false ->
  is_safe_directory (expand_path os (source cmd)) = true ->
  scan os cmd w (expand_path os (source cmd)) = Sys.Returns files ->
  (size (matching (pattern cmd) files) <= INT_MAX)%Z ->
  (is_safe_directory (expand_path os (destination cmd)) = true ->
     batch_result
       (fun w file => Sys.fs_rename os w file
          (Path.append (expand_path os (destination cmd)) (Path.filename file)))
       "Failed to move " (matching (pattern cmd) files) w (move_files os t0 t1 cmd w)
     /\
     batch_result
       (fun w file => Sys.fs_copy_file os w file
          (Path.append (expand_path os (destination cmd)) (Path.filename file)))
       "Failed to copy " (matching (pattern cmd) files) w (copy_files os t0 t1 cmd w))
  /\
  batch_result (fun w file => Sys.fs_remove os w file)
    "Failed to delete " (matching (pattern cmd) files) w (delete_files os t0 t1 cmd w).
Proof.
  intros Hdry Hsrc Hscan Hmax. split; [intros Hdst; split|].
  - unfold move_files. rewrite Hsrc, Hdst, Hscan, Hdry. cbv zeta. cbn [negb].
    apply (batch_result_intro _ _ _ _ _
             (fun n x => set_end_time t1 (set_success true
                (set_message ("Successfully moved " ++ Str.to_string n ++ " files") x))));
      auto.
  - unfold copy_files. rewrite Hsrc, Hdst, Hscan, Hdry. cbv zeta. cbn [negb].
    apply (batch_result_intro _ _ _ _ _
             (fun n x => set_end_time t1 (set_success true
                (set_message ("Successfully copied " ++ Str.to_string n ++ " files") x))));
      auto.
  - unfold delete_files. rewrite Hsrc, Hscan, Hdry. cbv zeta. cbn [negb].
    apply (batch_result_intro _ _ _ _ _
             (fun n x => set_end_time t1 (set_success true
                (set_message ("Successfully deleted " ++ Str.to_string n ++ " files") x))));
      auto.
Qed.

(** Three files match [*.txt]; [b.txt] is locked: two files are moved and
    the one error names [b.txt]. *)
Lemma batch_partial_failure_witness :
  let cmd := MemFS.command "move" "*.txt" "/tmp/D" "/tmp/out" false in
  let files := ["/tmp/D/a.txt"; "/tmp/D/b.txt"; "/tmp/D/c.txt"] in
  batch_result
    (fun w file => MemFS.rename w file (Path.append "/tmp/out" (Path.filename file)))
    "Failed to move " files MemFS.sample (move_files MemFS.os 100 200 cmd MemFS.sample)
  /\ fst (move_files MemFS.os 100 200 cmd MemFS.sample)
     = {| success := true; operation := "move";
          message := "Successfully moved 2 files"; error_message := "";
          files_scanned := 3; files_matched := 3; files_affected := 2;
          errors := ["Failed to move /tmp/D/b.txt: filesystem error: cannot rename: Operation not permitted"];
          start_time := 100; end_time := 200 |}.
Proof.
  split; [|reflexivity].
  refine (proj1 (proj1 (batch_partial_failure MemFS.World MemFS.os 100 200
            (MemFS.command "move" "*.txt" "/tmp/D" "/tmp/out" false) MemFS.sample
            ["/tmp/D/a.txt"; "/tmp/D/b.txt"; "/tmp/D/c.txt"] _ _ _ _) _)).
  - reflexivity.
  - reflexivity.
  - reflexivity.
  - vm_compute. discriminate.
  - reflexivity.
Defined.

(** ** Dry runs *)

(** C7, as the code has it.  A dry run on safe directories returns the
    file system as it was, with [files_affected = 0] and no errors.  When
    the scan of the source returns, the result has [success = true] and the
    message [Would move/copy/delete N files], [N] being [files_matched];
    when the scan throws (the test of the source directory fails), the
    handler answers [success = false] with the cause in [error_message].
    A second run on the file system the first one returned reports the same
    [files_scanned] and [files_matched]. *)
Theorem dry_run_preview
    (World : Type) (os : Sys.OS World) (t0 t1 : Z) (cmd : Command) (w : World) :
  dry_run cmd = true ->
  is_safe_directory (expand_path os (source cmd)) = true ->
  (is_safe_directory (expand_path os (destination cmd)) = true ->
     dry_run_result os (move_files os) "move" "Move operation failed: " t0 t1 cmd w /\
     dry_run_result os (copy_files os) "copy" "Copy operation failed: " t0 t1 cmd w) /\
  dry_run_result os (delete_files os) "delete" "Delete operation failed: " t0 t1 cmd w.
Proof.
  intros Hdry Hsrc. split; [intros Hdst; split|].
  - unfold dry_run_result, move_files. cbv zeta. rewrite Hsrc, Hdst, Hdry. cbn [negb].
    destruct (scan os cmd w (expand_path os (source cmd))) as [files|what] eqn:Hscan;
      cbn [fst snd]; rewrite ?Hscan; cbn; repeat split; reflexivity.
  - unfold dry_run_result, copy_files. cbv zeta. rewrite Hsrc, Hdst, Hdry. cbn [negb].
    destruct (scan os cmd w (expand_path os (source cmd))) as [files|what] eqn:Hscan;
      cbn [fst snd]; rewrite ?Hscan; cbn; repeat split; reflexivity.
  - unfold dry_run_result, delete_files. cbv zeta. rewrite Hsrc, Hdry. cbn [negb].
    destruct (scan os cmd w (expand_path os (source cmd))) as [files|what] eqn:Hscan;
      cbn [fst snd]; rewrite ?Hscan; cbn; repeat split; reflexivity.
Qed.

Lemma dry_run_preview_witness :
  dry_run_result MemFS.os (move_files MemFS.os) "move" "Move operation failed: " 100 200
    (MemFS.command "move" "*.txt" "/tmp/D" "/tmp/out" true) MemFS.sample
  /\ fst (move_files MemFS.os 100 200
            (MemFS.command "move" "*.txt" "/tmp/D" "/tmp/out" true) MemFS.sample)
     = {| success := true; operation := "move";
          message := "Would move 3 files"; error_message := "";
          files_scanned := 3; files_matched := 3; files_affected := 0;
          errors := []; start_time := 100; end_time := 0 |}.
Proof.
  split; [|reflexivity].
  refine (proj1 (proj1 (dry_run_preview MemFS.World MemFS.os 100 200
            (MemFS.command "move" "*.txt" "/tmp/D" "/tmp/out" true) MemFS.sample
            _ _) _)); reflexivity.
Defined.

(** The source [/home/other/private] is a safe directory, but its status
    cannot be read: [exists] throws in [scan_directory], outside its [try],
    and the dry run ends in the handler's [catch] with [success = false]. *)
Lemma dry_run_unreadable_source : ~ dry_run_always_previews.
Proof.
  intros H.
  specialize (H MemFS.World MemFS.os 100%Z 200%Z
                (MemFS.command "move" "*.txt" "/home/other/private" "/tmp/out" true)
                MemFS.sample eq_refl eq_refl).
  destruct H as [H _]. destruct (H eq_refl) as [(_ & _ & Hs & _) _].
  vm_compute in Hs. discriminate Hs.
Qed.

(** ** The file system in memory keeps the contract of [create_directories] *)

Lemma lookup_set (p q : Path.path) (n : MemFS.node) (w : MemFS.World) :
  MemFS.lookup q (MemFS.set p n w)
  = if String.eqb p q then Some n else MemFS.lookup q w.
Proof.
  induction w as [|[k m] w IH]; simpl.
  - destruct (String.eqb_spec p q); reflexivity.
  - destruct (String.eqb_spec k p) as [->|Hkp]; simpl.
    + destruct (String.eqb_spec p q); reflexivity.
    + destruct (String.eqb_spec k q) as [->|Hkq].
      * destruct (String.eqb_spec p q); [congruence|reflexivity].
      * exact IH.
Qed.

Lemma lookup_made (l : list Path.path) (w : MemFS.World) (q : Path.path) :
  In q l ->
  MemFS.lookup q (fold_right (fun q w' => MemFS.set q MemFS.Dir w') w l) = Some MemFS.Dir.
Proof.
  induction l as [|x l IH]; intros Hin; [destruct Hin|].
  simpl. rewrite lookup_set.
  destruct (String.eqb_spec x q) as [|Hne]; [reflexivity|].
  destruct Hin as [E|Hin]; [congruence|]. now apply IH.
Qed.

Lemma memfs_contract : create_directories_contract MemFS.os.
Proof.
  split.
  - intros w p. simpl. unfold MemFS.is_directory, MemFS.create_directories.
    destruct (MemFS.lookup p w) as [[l| |]|]; try discriminate. reflexivity.
  - intros w w' p. simpl. unfold MemFS.is_directory at 1, MemFS.create_directories.
    destruct (MemFS.lookup p w) as [[l| |]|]; intros Hnot; try congruence;
      (destruct (existsb (MemFS.blocked w) (Path.lineage p)
                 || negb (Path.has_relative_path p)); [discriminate|]);
      intros E q Hin; injection E as <-;
      unfold MemFS.is_directory; now rewrite (lookup_made _ _ _ Hin).
Qed.

(** ** create_folder *)

Lemma expand_path_plain {World : Type} (os : Sys.OS World) (s : string) :
  Str.contains_char "/" s = false -> expand_path os s = s.
Proof.
  intros H. unfold expand_path, Str.starts_with.
  destruct (String.prefix "~/" s) eqn:E; [|reflexivity].
  apply prefix_app in E as [rest ->]. discriminate H.
Qed.

Lemma parent_path_single (s : string) :
  Str.contains_char "/" s = false -> Path.parent_path s = "".
Proof.
  intros H. unfold Path.parent_path.
  destruct s as [|c s]; [reflexivity|].
  assert (Hc : Path.is_sep c = false).
  { simpl in H. apply orb_false_iff in H as [H _]. exact H. }
  unfold Path.has_relative_path. cbn [Path.all_seps]. rewrite Hc. cbn [andb negb].
  cbn [Path.remove_filename]. now rewrite H.
Qed.

(** C8, as the code has it.  [create_folder] checks the parent of the
    expanded destination.  Past the check and outside a dry run it calls
    [create_directories] on the whole path and returns the file system that
    call leaves: when the call returns, the result has [success = true]
    and [files_affected = 1], and the path with the directories above it
    exists; a directory that is there already is no error; when the call
    throws, the result has [success = false] and [files_affected = 0]. *)
Theorem create_folder_checks_parent
    (World : Type) (os : Sys.OS World) (t0 t1 : Z) (cmd : Command) (w : World) :
  create_directories_contract os ->
  let folder_path := expand_path os (destination cmd) in
  let out := create_folder os t0 t1 cmd w in
  (is_safe_directory (Path.parent_path folder_path) = false ->
     out = (aborted "create_folder" t0 "Parent directory is not safe to operate on", w)) /\
  (is_safe_directory (Path.parent_path folder_path) = true -> dry_run cmd = false ->
     snd out = fst (Sys.fs_create_directories os w folder_path) /\
     match snd (Sys.fs_create_directories os w folder_path) with
     | None =>
         fst out = folder_created t0 t1 folder_path /\
         (Sys.fs_is_directory os w folder_path <> Sys.Returns true ->
          forall q, In q (Path.lineage folder_path) ->
                    Sys.fs_is_directory os (snd out) q = Sys.Returns true)
     | Some what => fst out = folder_failed t0 t1 what
     end /\
     (Sys.fs_is_directory os w folder_path = Sys.Returns true ->
      out = (folder_created t0 t1 folder_path, w))).
Proof.
  intros [Hex Hnew] folder_path out. subst out. unfold create_folder.
  fold folder_path. split.
  - intros Hp. now rewrite Hp.
  - intros Hp Hdry. rewrite Hp, Hdry. cbn [negb].
    split; [|split].
    + destruct (Sys.fs_create_directories os w folder_path) as [w' [what|]]; reflexivity.
    + destruct (Sys.fs_create_directories os w folder_path) as [w' [what|]] eqn:E;
        cbn [fst snd]; [reflexivity|].
      split; [reflexivity|]. intros Hnot q Hin. exact (Hnew w w' folder_path Hnot E q Hin).
    + intros Hdir. now rewrite (Hex w folder_path Hdir).
Qed.

(** [/tmp/x/y/z] is made with the two directories above it; making
    [/tmp/out], which exists, succeeds too.  The check is on the parent:
    [/home] is safe but its parent [/] is not. *)
Lemma create_folder_checks_parent_witness :
  fst (create_folder MemFS.os 100 200
         (MemFS.command "create_folder" "" "" "/tmp/x/y/z" false) MemFS.sample)
  = folder_created 100 200 "/tmp/x/y/z"
  /\ (forall q, In q ["/tmp/x/y/z"; "/tmp/x/y"; "/tmp/x"; "/tmp"] ->
        MemFS.is_directory
          (snd (create_folder MemFS.os 100 200
                  (MemFS.command "create_folder" "" "" "/tmp/x/y/z" false) MemFS.sample)) q
        = Sys.Returns true)
  /\ create_folder MemFS.os 100 200
       (MemFS.command "create_folder" "" "" "/tmp/out" false) MemFS.sample
     = (folder_created 100 200 "/tmp/out", MemFS.sample)
  /\ (is_safe_directory "/home" = true
      /\ create_folder MemFS.os 100 200
           (MemFS.command "create_folder" "" "" "/home" false) MemFS.sample
         = (aborted "create_folder" 100 "Parent directory is not safe to operate on",
            MemFS.sample)).
Proof.
  pose proof (create_folder_checks_parent MemFS.World MemFS.os 100 200
                (MemFS.command "create_folder" "" "" "/tmp/x/y/z" false) MemFS.sample
                memfs_contract) as H1.
  pose proof (create_folder_checks_parent MemFS.World MemFS.os 100 200
                (MemFS.command "create_folder" "" "" "/tmp/out" false) MemFS.sample
                memfs_contract) as H2.
  pose proof (create_folder_checks_parent MemFS.World MemFS.os 100 200
                (MemFS.command "create_folder" "" "" "/home" false) MemFS.sample
                memfs_contract) as H3.
  cbv zeta in H1, H2, H3.
  destruct H1 as [_ H1]. destruct (H1 eq_refl eq_refl) as (_ & H1' & _).
  destruct H2 as [_ H2]. destruct (H2 eq_refl eq_refl) as (_ & _ & H2').
  destruct H3 as [H3 _].
  split; [exact (proj1 H1')|].
  split; [exact (proj2 H1' ltac:(discriminate))|].
  split; [exact (H2' eq_refl)|].
  split; [reflexivity|exact (H3 eq_refl)].
Defined.

(** The parent of [/tmp/D/a.txt/sub] is safe, but [a.txt] is a regular
    file: [create_directories] throws and the result has
    [success = false]. *)
Lemma create_folder_under_a_file : ~ create_folder_always_succeeds.
Proof.
  intros H.
  specialize (H MemFS.World MemFS.os 100%Z 200%Z
                (MemFS.command "create_folder" "" "" "/tmp/D/a.txt/sub" false)
                MemFS.sample memfs_contract eq_refl eq_refl).
  destruct H as [H _]. vm_compute in H. discriminate H.
Qed.

(** C10.  A destination that is one relative component is left as it is
    by [expand_path]; its parent is the empty path, which
    [is_safe_directory] accepts (it equals no root and begins with no
    system directory); so [create_folder] is never stopped by the check:
    a dry run previews, any other run calls [create_directories] on the
    destination and reports what that call did. *)
Theorem create_folder_single_component
    (World : Type) (os : Sys.OS World) (t0 t1 : Z) (cmd : Command) (w : World) :
  destination cmd <> "" ->
  Str.contains_char "/" (destination cmd) = false ->
  expand_path os (destination cmd) = destination cmd /\
  Path.parent_path (expand_path os (destination cmd)) = "" /\
  is_safe_directory "" = true /\
  (forall root, In root root_directories -> Path.path_eq "" root = false) /\
  is_system_directory "" = false /\
  (dry_run cmd = false ->
     create_folder os t0 t1 cmd w
     = match Sys.fs_create_directories os w (destination cmd) with
       | (w', None) => (folder_created t0 t1 (destination cmd), w')
       | (w', Some what) => (folder_failed t0 t1 what, w')
       end) /\
  (dry_run cmd = true ->
     exists r, create_folder os t0 t1 cmd w = (r, w) /\ success r = true /\
               message r = "Would create folder: " ++ destination cmd).
Proof.
  intros Hne Hsep.
  pose proof (expand_path_plain os _ Hsep) as He.
  pose proof (parent_path_single _ Hsep) as Hp.
  split; [exact He|]. split; [now rewrite He|].
  split; [reflexivity|]. split.
  { intros root [<-|[<-|[<-|[]]]]; reflexivity. }
  split; [reflexivity|].
  unfold create_folder. rewrite He, Hp.
  change (is_safe_directory "") with true. cbn [negb].
  split; intros Hdry; rewrite Hdry.
  - destruct (Sys.fs_create_directories os w (destination cmd)) as [w' [what|]];
      reflexivity.
  - eexists. split; [reflexivity|]. split; reflexivity.
Qed.

Lemma create_folder_single_component_witness :
  create_folder MemFS.os 100 200
    (MemFS.command "create_folder" "" "" "newdir" false) MemFS.sample
  = (folder_created 100 200 "newdir",
     List.app MemFS.sample [("newdir", MemFS.Dir)]).
Proof.
  exact (proj1 (proj2 (proj2 (proj2 (proj2 (proj2
           (create_folder_single_component MemFS.World MemFS.os 100 200
              (MemFS.command "create_folder" "" "" "newdir" false) MemFS.sample
              ltac:(discriminate) eq_refl)))))) eq_refl).
Defined.

Lemma unsafe_directory_aborts_witness :
  let out := move_files MemFS.os 100 200
               (MemFS.command "move" "*.txt" "/tmp/D" "/usr/local" false) MemFS.sample in
  snd out = MemFS.sample /\
  success (fst out) = false /\
  error_message (fst out) = "Destination directory is not safe to operate on" /\
  files_scanned (fst out) = 0%Z /\ files_matched (fst out) = 0%Z /\
  files_affected (fst out) = 0%Z /\ errors (fst out) = [].
Proof.
  pose proof (unsafe_directory_aborts MemFS.World MemFS.os 100 200
                (MemFS.command "move" "*.txt" "/tmp/D" "/usr/local" false) MemFS.sample
                (or_intror eq_refl) (@move_files MemFS.World) "move"
                (or_introl eq_refl)) as H.
  cbv zeta in *. destruct H as (H1 & H2 & _ & H4 & H5 & H6 & H7 & _).
  repeat split; assumption || reflexivity.
Defined.

(** A recursive scan of [/tmp] delivers the three files of [/tmp/D]:
    the pattern [a.txt] keeps [/tmp/D/a.txt], by its filename; the pattern
    [D/a.txt], which is the rest of that path, keeps nothing. *)
Lemma pattern_filter_uses_filename_witness :
  (files_scanned (fst (delete_files MemFS.os 100 200
                         (recursive_command "delete" "a.txt" "/tmp" "" true)
                         MemFS.sample)) = 3%Z
   /\ files_matched (fst (delete_files MemFS.os 100 200
                            (recursive_command "delete" "a.txt" "/tmp" "" true)
                            MemFS.sample)) = 1%Z
   /\ matching "a.txt" ["/tmp/D/a.txt"; "/tmp/D/b.txt"; "/tmp/D/c.txt"]
      = ["/tmp/D/a.txt"])
  /\ (files_scanned (fst (delete_files MemFS.os 100 200
                            (recursive_command "delete" "D/a.txt" "/tmp" "" true)
                            MemFS.sample)) = 3%Z
      /\ files_matched (fst (delete_files MemFS.os 100 200
                               (recursive_command "delete" "D/a.txt" "/tmp" "" true)
                               MemFS.sample)) = 0%Z).
Proof.
  pose proof (pattern_filter_uses_filename MemFS.World MemFS.os 100 200
                (recursive_command "delete" "a.txt" "/tmp" "" true) MemFS.sample
                ["/tmp/D/a.txt"; "/tmp/D/b.txt"; "/tmp/D/c.txt"] eq_refl eq_refl)
    as (H1 & _ & _ & _ & (H2 & H3) & _).
  pose proof (pattern_filter_uses_filename MemFS.World MemFS.os 100 200
                (recursive_command "delete" "D/a.txt" "/tmp" "" true) MemFS.sample
                ["/tmp/D/a.txt"; "/tmp/D/b.txt"; "/tmp/D/c.txt"] eq_refl eq_refl)
    as (_ & _ & _ & _ & (H4 & H5) & H6).
  split; [split; [|split]|split].
  - exact H2.
  - exact (eq_trans H3 eq_refl).
  - exact (eq_trans H1 eq_refl).
  - exact H4.
  - rewrite H5. now rewrite (proj1 (H6 eq_refl)).
Defined.

(** * Further properties of the code *)

Import validators Json program Spec2.

(** ** Directory safety beyond the deny-list entries *)

Lemma string_app_assoc (s t u : string) : (s ++ t) ++ u = s ++ (t ++ u).
Proof. induction s as [|c s IH]; simpl; [reflexivity|now rewrite IH]. Qed.

Lemma is_safe_directory_false_system (path : Path.path) :
  is_system_directory path = true -> is_safe_directory path = false.
Proof.
  intros H. unfold is_safe_directory. rewrite H.
  destruct (Path.path_eq path "/" || Path.path_eq path "C:\" || Path.path_eq path "D:\");
    reflexivity.
Qed.

(** X1.  Whatever is appended to a path that begins with a system
    directory, the result is a system directory again and is unsafe: the
    directories below a system directory are refused, and so is every
    sibling whose name merely continues it. *)
Theorem system_directory_inherited (path below : string) :
  is_system_directory path = true ->
  is_system_directory (path ++ below) = true /\
  is_safe_directory (path ++ below) = false.
Proof.
  intros H.
  assert (H' : is_system_directory (path ++ below) = true).
  { apply is_system_directory_prefix in H as (d & rest & Hin & ->).
    apply is_system_directory_prefix. exists d, (rest ++ below).
    split; [exact Hin|apply string_app_assoc]. }
  split; [exact H'|now apply is_safe_directory_false_system].
Qed.

Lemma system_directory_inherited_witness :
  is_system_directory ("/usr" ++ "/local/bin") = true /\
  is_safe_directory ("/usr" ++ "/local/bin") = false.
Proof. exact (system_directory_inherited "/usr" "/local/bin" eq_refl). Defined.

Lemma system_dir_shape (d : string) :
  In d system_dirs ->
  (exists c rest, d = String "/" (String c rest) /\ c <> "/"%char)
  \/ (exists rest, d = "C:\" ++ rest).
Proof.
  intros Hin. simpl in Hin.
  repeat (destruct Hin as [<-|Hin];
          [first [left; do 2 eexists; split; [reflexivity|discriminate]
                 |right; eexists; reflexivity]|]).
  destruct Hin.
Qed.

(** X2.  A path that does not begin with a separator, nor with [C:\], and
    is not [D:\], is always accepted: relative paths ([..], [../../etc])
    are never refused, whatever directory they lead to. *)
Theorem relative_path_is_safe (path : Path.path) :
  Path.has_root_directory path = false ->
  String.prefix "C:\" path = false ->
  path <> "D:\" ->
  is_safe_directory path = true.
Proof.
  intros Hroot HC HD. unfold is_safe_directory.
  destruct (Path.path_eq path "/") eqn:E1.
  { apply path_eq_root in E1 as [Hne Hs]. destruct path as [|c s]; [contradiction|].
    simpl in *. apply andb_true_iff in Hs as [Hc _]. congruence. }
  destruct (Path.path_eq path "C:\") eqn:E2.
  { apply (path_eq_single path "C:\" eq_refl eq_refl) in E2. subst path. discriminate HC. }
  destruct (Path.path_eq path "D:\") eqn:E3.
  { apply (path_eq_single path "D:\" eq_refl eq_refl) in E3. contradiction. }
  cbn [orb].
  destruct (is_system_directory path) eqn:E4; [exfalso|reflexivity].
  apply is_system_directory_prefix in E4 as (d & rest & Hin & ->).
  destruct (system_dir_shape d Hin) as [(c & r & -> & _)|(r & ->)].
  - discriminate Hroot.
  - rewrite string_app_assoc in HC.
    assert (Hp : String.prefix "C:\" ("C:\" ++ (r ++ rest)) = true)
      by (apply prefix_app; eexists; reflexivity).
    congruence.
Qed.

Lemma relative_path_is_safe_witness : is_safe_directory "../../etc" = true.
Proof.
  exact (relative_path_is_safe "../../etc" eq_refl eq_refl ltac:(discriminate)).
Defined.

(** X3.  The deny-list is compared with the text of the path, the roots
    with the path: a path written with two leading separators is no
    system directory and, unless it is only separators, no root, so it is
    accepted ([//etc], [//usr/bin]). *)
Theorem doubled_slash_is_safe (rest : string) :
  Path.all_seps rest = false ->
  is_system_directory ("//" ++ rest) = false /\
  is_safe_directory ("//" ++ rest) = true.
Proof.
  intros Hrest.
  assert (Hsys : is_system_directory ("//" ++ rest) = false).
  { destruct (is_system_directory ("//" ++ rest)) eqn:E; [exfalso|reflexivity].
    apply is_system_directory_prefix in E as (d & r & Hin & E).
    destruct (system_dir_shape d Hin) as [(c & r' & -> & Hc)|(r' & ->)].
    - simpl in E. injection E as E _. congruence.
    - discriminate E. }
  split; [exact Hsys|]. unfold is_safe_directory. rewrite Hsys.
  destruct (Path.path_eq ("//" ++ rest) "/") eqn:E1.
  { apply path_eq_root in E1 as [_ Hs]. simpl in Hs. congruence. }
  destruct (Path.path_eq ("//" ++ rest) "C:\") eqn:E2.
  { apply (path_eq_single _ "C:\" eq_refl eq_refl) in E2. discriminate E2. }
  destruct (Path.path_eq ("//" ++ rest) "D:\") eqn:E3.
  { apply (path_eq_single _ "D:\" eq_refl eq_refl) in E3. discriminate E3. }
  reflexivity.
Qed.

Lemma doubled_slash_is_safe_witness :
  is_system_directory "//etc" = false /\ is_safe_directory "//etc" = true.
Proof. exact (doubled_slash_is_safe "etc" eq_refl). Defined.

(** ** More on the glob matcher *)

Lemma replace_double_star_no_star (s : string) :
  Str.contains_char "*" s = false -> replace_double_star s = s.
Proof.
  induction s as [|c s IH]; intros H; [reflexivity|].
  simpl in H. apply orb_false_iff in H as [Hc Hs].
  cbn [replace_double_star]. rewrite Hc. cbn [andb].
  destruct s as [|d s]; [reflexivity|]. now rewrite (IH Hs).
Qed.

Lemma has_wildcard_star (s : string) :
  has_wildcard s = false -> Str.contains_char "*" s = false.
Proof. unfold has_wildcard. intros H. now apply orb_false_iff in H as [H _]. Qed.

(** X6.  In a pattern without [*], a [?] stands for exactly one character
    that is no line terminator: the filename must be the text before the
    [?], one such character, and the text after it, letter case apart. *)
Theorem glob_question_mark (f s t : string) :
  has_wildcard s = false -> has_wildcard t = false ->
  (matches_glob_pattern f (s ++ String "?" t) = true <->
   exists pre c suf,
     f = pre ++ String c suf /\ Str.lower pre = Str.lower s /\
     Regex.is_line_terminator c = false /\ Str.lower suf = Str.lower t).
Proof.
  intros Hs Ht.
  assert (Hstar : Str.contains_char "*" (s ++ String "?" t) = false).
  { rewrite contains_char_app, (has_wildcard_star _ Hs). simpl.
    now rewrite (has_wildcard_star _ Ht). }
  rewrite matches_glob_pattern_regex, (replace_double_star_no_star _ Hstar).
  rewrite pieces_app, (pieces_literal _ Hs). cbn [pieces].
  rewrite (pieces_literal _ Ht).
  change (piece_of "?") with (Regex.One Regex.Dot).
  rewrite regex_match_literal_app. split.
  - intros (pre & suf0 & -> & Hp & H).
    destruct suf0 as [|c suf]; [discriminate|].
    cbn [Regex.regex_match Regex.atom_matches] in H.
    apply andb_true_iff in H as [Hc H]. apply negb_true_iff in Hc.
    apply regex_match_literal in H. now exists pre, c, suf.
  - intros (pre & c & suf & -> & Hp & Hc & Hsuf).
    exists pre, (String c suf). repeat split; [exact Hp|].
    cbn [Regex.regex_match Regex.atom_matches]. rewrite Hc. cbn [negb andb].
    now apply regex_match_literal.
Qed.

Lemma glob_question_mark_witness :
  matches_glob_pattern "IMG7.jpg" ("img" ++ String "?" ".JPG") = true.
Proof.
  apply (proj2 (glob_question_mark "IMG7.jpg" "img" ".JPG" eq_refl eq_refl)).
  exists "IMG", "7"%char, ".jpg". repeat split; reflexivity.
Defined.

Lemma single_line_app (s t : string) :
  single_line (s ++ t) = single_line s && single_line t.
Proof.
  induction s as [|c s IH]; simpl; [reflexivity|].
  now rewrite IH, andb_assoc.
Qed.

(** X7.  The extension test is the stricter one: a filename (without line
    terminators) accepted by the extension pattern [.ext] is accepted by
    the glob [*.ext] too.  The converse fails, the glob ignoring letter
    case where the extension test does not. *)
Theorem extension_match_implies_glob (f rest : string) :
  has_wildcard (String "." rest) = false ->
  single_line f = true ->
  matches_pattern f (String "." rest) = true ->
  matches_pattern f (String "*" (String "." rest)) = true.
Proof.
  intros Hw Hline H.
  assert (Hext : exists pre, f = pre ++ String "." rest).
  { unfold matches_pattern in H. fold (has_wildcard (String "." rest)) in H.
    rewrite Hw in H. change (Ascii.eqb "." ".") with true in H. cbv iota in H.
    now apply ends_with_app. }
  destruct Hext as [pre ->].
  unfold matches_pattern. cbn [Str.contains_char]. change (Ascii.eqb "*" "*") with true.
  cbn [orb]. apply glob_star_prefix; [exact Hw|].
  rewrite single_line_app in Hline. apply andb_true_iff in Hline as [Hpre _].
  now exists pre, (String "." rest).
Qed.

Lemma extension_match_implies_glob_witness :
  matches_pattern "notes.txt" "*.txt" = true /\
  (matches_pattern "NOTES.TXT" ".txt" = false /\
   matches_pattern "NOTES.TXT" "*.txt" = true).
Proof.
  split.
  - exact (extension_match_implies_glob "notes.txt" "txt" eq_refl eq_refl eq_refl).
  - split; reflexivity.
Defined.

(** ** The path validators *)

(** X8.  A path accepted as a source is accepted as a destination, and
    whatever either validator accepts is a safe directory.  A path that
    does not exist is never a valid source, and is a valid destination
    exactly when it is safe. *)
Theorem valid_source_is_valid_destination
    (World : Type) (os : Sys.OS World) (w : World) (path : Path.path) :
  (validate_source_path os w path = Sys.Returns true ->
     validate_destination_path os w path = Sys.Returns true) /\
  (validate_source_path os w path = Sys.Returns true -> is_safe_directory path = true) /\
  (validate_destination_path os w path = Sys.Returns true -> is_safe_directory path = true) /\
  (Sys.fs_exists os w path = Sys.Returns false ->
     validate_source_path os w path = Sys.Returns false /\
     validate_destination_path os w path = Sys.Returns (is_safe_directory path)).
Proof.
  unfold validate_source_path, validate_destination_path.
  destruct (Sys.fs_exists os w path) as [[|]|what];
    destruct (Sys.fs_is_directory os w path) as [[|]|what'];
    (split; [|split; [|split]]); intros H; try discriminate H;
    try (split; reflexivity); try exact H; try congruence.
Qed.

(** ** The handlers and the dispatcher *)

Ltac step_handler :=
  match goal with
  | |- context [negb (is_safe_directory ?p)] =>
      destruct (is_safe_directory p) eqn:?; cbn [negb]
  | |- context [scan ?os ?c ?w ?p] =>
      destruct (scan os c w p) as [?files|?what] eqn:?
  | |- context [if dry_run ?c then _ else _] => destruct (dry_run c) eqn:?
  | |- context [for_each_file ?a ?f ?l ?n ?e ?w] =>
      destruct (for_each_file a f l n e w) as [[?count ?errs] ?w'] eqn:?
  | |- context [Sys.fs_create_directories ?os ?w ?p] =>
      destruct (Sys.fs_create_directories os w p) as [?w' [?what|]] eqn:?
  end.

Ltac run_handler := cbv zeta; repeat step_handler.

(** A validated command reaches the handler of its action: the last
    branch of the dispatcher is never taken. *)
Lemma execute_command_dispatch
    (World : Type) (os : Sys.OS World) (t0 t1 : Z) (cmd : Command) (w : World) :
  validate_command cmd = true ->
  (action cmd = "move" /\ execute_command os t0 t1 cmd w = move_files os t0 t1 cmd w)
  \/ (action cmd = "copy" /\ execute_command os t0 t1 cmd w = copy_files os t0 t1 cmd w)
  \/ (action cmd = "delete" /\ execute_command os t0 t1 cmd w = delete_files os t0 t1 cmd w)
  \/ (action cmd = "create_folder"
      /\ execute_command os t0 t1 cmd w = create_folder os t0 t1 cmd w).
Proof.
  intros V. unfold execute_command. rewrite V. cbn [negb].
  destruct (String.eqb_spec (action cmd) "move") as [E|Nm]; [now left|].
  destruct (String.eqb_spec (action cmd) "copy") as [E|Nc]; [now right; left|].
  destruct (String.eqb_spec (action cmd) "delete") as [E|Nd]; [now right; right; left|].
  destruct (String.eqb_spec (action cmd) "create_folder") as [E|Nf];
    [now right; right; right|].
  exfalso. apply validate_command_well_formed in V.
  destruct V as [[[H|H] _]|[[H _]|[H _]]]; contradiction.
Qed.

Lemma handlers_well_shaped
    (World : Type) (os : Sys.OS World) (t0 t1 : Z) (cmd : Command) (w : World) :
  well_shaped (fst (move_files os t0 t1 cmd w)) /\
  well_shaped (fst (copy_files os t0 t1 cmd w)) /\
  well_shaped (fst (delete_files os t0 t1 cmd w)) /\
  well_shaped (fst (create_folder os t0 t1 cmd w)).
Proof.
  unfold well_shaped, move_files, copy_files, delete_files, create_folder.
  repeat split; run_handler; cbn; repeat split; try reflexivity; discriminate.
Qed.

(** X9.  Every result of [execute_command] has one of two shapes.  With
    [success = true] the [error_message] is empty.  With [success = false]
    the [error_message] is not empty, and [message], [errors] and the
    three counters are as in a fresh result: a failure never reports
    partial work. *)
Theorem execute_command_result_shape
    (World : Type) (os : Sys.OS World) (t0 t1 : Z) (cmd : Command) (w : World) :
  let r := fst (execute_command os t0 t1 cmd w) in
  (success r = true -> error_message r = "") /\
  (success r = false ->
     error_message r <> "" /\ message r = "" /\ errors r = [] /\
     files_scanned r = 0%Z /\ files_matched r = 0%Z /\ files_affected r = 0%Z).
Proof.
  cbv zeta.
  assert (H : well_shaped (fst (execute_command os t0 t1 cmd w))).
  { destruct (validate_command cmd) eqn:V.
    - destruct (handlers_well_shaped World os t0 t1 cmd w) as (Hm & Hc & Hd & Hf).
      destruct (execute_command_dispatch World os t0 t1 cmd w V)
        as [[_ ->]|[[_ ->]|[[_ ->]|[_ ->]]]]; assumption.
    - unfold execute_command. rewrite V. cbn. repeat split; discriminate. }
  unfold well_shaped in H.
  destruct (success (fst (execute_command os t0 t1 cmd w)));
    split; intros E; try discriminate E; exact H.
Qed.

Lemma batch_handlers_failure
    (World : Type) (os : Sys.OS World) (t0 t1 : Z) (cmd : Command) (w : World) :
  (success (fst (move_files os t0 t1 cmd w)) = false -> snd (move_files os t0 t1 cmd w) = w) /\
  (success (fst (copy_files os t0 t1 cmd w)) = false -> snd (copy_files os t0 t1 cmd w) = w) /\
  (success (fst (delete_files os t0 t1 cmd w)) = false -> snd (delete_files os t0 t1 cmd w) = w).
Proof.
  unfold move_files, copy_files, delete_files.
  repeat split; run_handler; cbn; intros H; try discriminate H; reflexivity.
Qed.

(** X10.  A move, copy or delete command that ends with
    [success = false] has changed nothing: every failure of these commands
    (rejected command, unsafe directory, scan that throws) is decided
    before the first file is touched. *)
Theorem failed_batch_changes_nothing
    (World : Type) (os : Sys.OS World) (t0 t1 : Z) (cmd : Command) (w : World) :
  action cmd <> "create_folder" ->
  success (fst (execute_command os t0 t1 cmd w)) = false ->
  snd (execute_command os t0 t1 cmd w) = w.
Proof.
  intros Ha Hs.
  destruct (validate_command cmd) eqn:V.
  - destruct (batch_handlers_failure World os t0 t1 cmd w) as (Hm & Hc & Hd).
    destruct (execute_command_dispatch World os t0 t1 cmd w V)
      as [[_ E]|[[_ E]|[[_ E]|[E _]]]]; [| | |contradiction];
      rewrite E in *; auto.
  - unfold execute_command. now rewrite V.
Qed.

Lemma failed_batch_changes_nothing_witness :
  snd (execute_command MemFS.os 100 200
         (MemFS.command "delete" "*.txt" "/home/other/private" "" false) MemFS.sample)
  = MemFS.sample.
Proof.
  exact (failed_batch_changes_nothing MemFS.World MemFS.os 100 200
           (MemFS.command "delete" "*.txt" "/home/other/private" "" false) MemFS.sample
           ltac:(discriminate) eq_refl).
Defined.

(** X11.  For a command that passes validation, [execute_command]
    answers with the result of the handler of its action, whose
    [operation] is the action; the "Unknown action" branch of the
    dispatcher cannot be reached. *)
Theorem execute_command_operation
    (World : Type) (os : Sys.OS World) (t0 t1 : Z) (cmd : Command) (w : World) :
  validate_command cmd = true ->
  operation (fst (execute_command os t0 t1 cmd w)) = action cmd /\
  start_time (fst (execute_command os t0 t1 cmd w)) = t0 /\
  In (action cmd) ["move"; "copy"; "delete"; "create_folder"] /\
  error_message (fst (execute_command os t0 t1 cmd w)) <> "Unknown action: " ++ action cmd.
Proof.
  intros V.
  destruct (execute_command_dispatch World os t0 t1 cmd w V)
    as [[Ea ->]|[[Ea ->]|[[Ea ->]|[Ea ->]]]]; rewrite Ea;
    unfold move_files, copy_files, delete_files, create_folder;
    (split; [|split; [|split]]);
    try (simpl; tauto);
    run_handler; cbn; try reflexivity; discriminate.
Qed.

Lemma execute_command_operation_witness :
  operation (fst (execute_command MemFS.os 100 200
                    (MemFS.command "copy" ".txt" "/tmp/D" "/tmp/out" false) MemFS.sample))
  = "copy".
Proof.
  exact (proj1 (execute_command_operation MemFS.World MemFS.os 100 200
                  (MemFS.command "copy" ".txt" "/tmp/D" "/tmp/out" false) MemFS.sample
                  eq_refl)).
Defined.

Lemma handlers_dry_run
    (World : Type) (os : Sys.OS World) (t0 t1 : Z) (cmd : Command) (w : World) :
  dry_run cmd = true ->
  forall handler,
    In handler [move_files os; copy_files os; delete_files os; create_folder os] ->
    snd (handler t0 t1 cmd w) = w /\
    files_affected (fst (handler t0 t1 cmd w)) = 0%Z /\
    errors (fst (handler t0 t1 cmd w)) = [].
Proof.
  intros Hdry handler [<-|[<-|[<-|[<-|[]]]]];
    unfold move_files, copy_files, delete_files, create_folder;
    rewrite Hdry; run_handler; cbn; repeat split; reflexivity.
Qed.

(** X12.  With [dry_run] set, [execute_command] never changes the file
    system, whatever the action, the directories and the validity of the
    command; [files_affected] stays 0 and [errors] empty. *)
Theorem dry_run_never_mutates
    (World : Type) (os : Sys.OS World) (t0 t1 : Z) (cmd : Command) (w : World) :
  dry_run cmd = true ->
  snd (execute_command os t0 t1 cmd w) = w /\
  files_affected (fst (execute_command os t0 t1 cmd w)) = 0%Z /\
  errors (fst (execute_command os t0 t1 cmd w)) = [].
Proof.
  intros Hdry.
  destruct (validate_command cmd) eqn:V.
  - pose proof (handlers_dry_run World os t0 t1 cmd w Hdry) as H.
    destruct (execute_command_dispatch World os t0 t1 cmd w V)
      as [[_ ->]|[[_ ->]|[[_ ->]|[_ ->]]]].
    + apply (H (move_files os)). simpl. tauto.
    + apply (H (copy_files os)). simpl. tauto.
    + apply (H (delete_files os)). simpl. tauto.
    + apply (H (create_folder os)). simpl. tauto.
  - unfold execute_command. rewrite V. cbn. repeat split; reflexivity.
Qed.

Lemma dry_run_never_mutates_witness :
  snd (execute_command MemFS.os 100 200
         (MemFS.command "delete" "" "/tmp/D" "" true) MemFS.sample) = MemFS.sample.
Proof.
  exact (proj1 (dry_run_never_mutates MemFS.World MemFS.os 100 200
                  (MemFS.command "delete" "" "/tmp/D" "" true) MemFS.sample eq_refl)).
Defined.

Lemma for_each_file_errors {World : Type}
    (attempt : World -> Path.path -> World * Sys.thrown) (failed : string) :
  forall files count errs w,
    snd (fst (for_each_file attempt failed files count errs w))
    = (errs ++ failures failed (fst (attempts attempt files w)))%list.
Proof.
  induction files as [|f files IH]; intros count errs w.
  - simpl. now rewrite app_nil_r.
  - cbn [for_each_file attempts].
    destruct (attempt w f) as [w' [what|]].
    + rewrite IH. destruct (attempts attempt files w') as [trace w_end].
      cbn [fst]. change (failures failed ((f, Some what) :: trace))
        with ((failed ++ f ++ ": " ++ what) :: failures failed trace).
      now rewrite <- app_assoc.
    + rewrite IH. destruct (attempts attempt files w') as [trace w_end]. reflexivity.
Qed.

Lemma failures_bound {World : Type}
    (attempt : World -> Path.path -> World * Sys.thrown) (failed : string)
    (files : list Path.path) (w : World) :
  (size (failures failed (fst (attempts attempt files w))) <= size files)%Z.
Proof.
  pose proof (attempts_files attempt files w) as Hf.
  pose proof (trace_partition failed (fst (attempts attempt files w))) as Hp.
  pose proof (size_nonneg (succeeded (fst (attempts attempt files w)))).
  assert (Hlen : size (fst (attempts attempt files w)) = size files).
  { unfold size. now rewrite <- Hf at 2; rewrite length_map. }
  lia.
Qed.

Lemma matching_bound (pattern : string) (files : list Path.path) :
  (0 <= size (matching pattern files) <= size files)%Z.
Proof.
  unfold size, matching.
  pose proof (filter_length_le (fun file => matches_pattern (Path.filename file) pattern) files).
  lia.
Qed.

Lemma batch_counters {World : Type}
    (attempt : World -> Path.path -> World * Sys.thrown) (failed : string)
    (pattern : string) (files : list Path.path) (w : World)
    (rest : Z -> FileOpResult -> FileOpResult) (r : FileOpResult) :
  (forall n x, files_scanned (rest n x) = files_scanned x) ->
  (forall n x, files_matched (rest n x) = files_matched x) ->
  (forall n x, errors (rest n x) = errors x) ->
  files_scanned r = size files -> files_matched r = size (matching pattern files) ->
  errors r = [] ->
  let out :=
    (let '(count, errs, w') :=
       for_each_file attempt failed (matching pattern files) 0 (errors r) w in
     (rest count (set_files_affected (size_t_of_int count) (set_errors errs r)), w')) in
  (0 <= files_matched (fst out) <= files_scanned (fst out))%Z /\
  (size (errors (fst out)) <= files_matched (fst out))%Z.
Proof.
  intros Hs Hm He Es Em Ee. cbv zeta.
  pose proof (for_each_file_errors attempt failed (matching pattern files) 0 (errors r) w) as H.
  destruct (for_each_file attempt failed (matching pattern files) 0 (errors r) w)
    as [[count errs] w'].
  cbn [fst snd] in *. rewrite Hs, Hm, He. cbn. rewrite Es, Em, H, Ee. cbn [List.app].
  split; [apply matching_bound|apply failures_bound].
Qed.

Lemma handlers_counters
    (World : Type) (os : Sys.OS World) (t0 t1 : Z) (cmd : Command) (w : World) :
  forall handler,
    In handler [move_files os; copy_files os; delete_files os; create_folder os] ->
    (0 <= files_matched (fst (handler t0 t1 cmd w))
       <= files_scanned (fst (handler t0 t1 cmd w)))%Z /\
    (size (errors (fst (handler t0 t1 cmd w)))
       <= files_matched (fst (handler t0 t1 cmd w)))%Z.
Proof.
  intros handler [<-|[<-|[<-|[<-|[]]]]].
  - unfold move_files. cbv zeta.
    destruct (is_safe_directory (expand_path os (source cmd))); cbn [negb]; [|cbn; lia].
    destruct (is_safe_directory (expand_path os (destination cmd))); cbn [negb]; [|cbn; lia].
    destruct (scan os cmd w _) as [files|what]; [|cbn; lia].
    destruct (dry_run cmd).
    + cbn. pose proof (matching_bound (pattern cmd) files). lia.
    + apply (batch_counters _ _ _ _ _
               (fun n x => set_end_time t1 (set_success true
                  (set_message ("Successfully moved " ++ Str.to_string n ++ " files") x))));
        auto.
  - unfold copy_files. cbv zeta.
    destruct (is_safe_directory (expand_path os (source cmd))); cbn [negb]; [|cbn; lia].
    destruct (is_safe_directory (expand_path os (destination cmd))); cbn [negb]; [|cbn; lia].
    destruct (scan os cmd w _) as [files|what]; [|cbn; lia].
    destruct (dry_run cmd).
    + cbn. pose proof (matching_bound (pattern cmd) files). lia.
    + apply (batch_counters _ _ _ _ _
               (fun n x => set_end_time t1 (set_success true
                  (set_message ("Successfully copied " ++ Str.to_string n ++ " files") x))));
        auto.
  - unfold delete_files. cbv zeta.
    destruct (is_safe_directory (expand_path os (source cmd))); cbn [negb]; [|cbn; lia].
    destruct (scan os cmd w _) as [files|what]; [|cbn; lia].
    destruct (dry_run cmd).
    + cbn. pose proof (matching_bound (pattern cmd) files). lia.
    + apply (batch_counters _ _ _ _ _
               (fun n x => set_end_time t1 (set_success true
                  (set_message ("Successfully deleted " ++ Str.to_string n ++ " files") x))));
        auto.
  - unfold create_folder. run_handler; cbn; lia.
Qed.

(** X13.  In every result of [execute_command] the counters are ordered:
    [files_matched] is at most [files_scanned], and there are at most
    [files_matched] entries in [errors] - however many files there are. *)
Theorem counters_ordered
    (World : Type) (os : Sys.OS World) (t0 t1 : Z) (cmd : Command) (w : World) :
  let r := fst (execute_command os t0 t1 cmd w) in
  (0 <= files_matched r <= files_scanned r)%Z /\
  (size (errors r) <= files_matched r)%Z.
Proof.
  cbv zeta. destruct (validate_command cmd) eqn:V.
  - pose proof (handlers_counters World os t0 t1 cmd w) as H.
    destruct (execute_command_dispatch World os t0 t1 cmd w V)
      as [[_ ->]|[[_ ->]|[[_ ->]|[_ ->]]]].
    + apply (H (move_files os)). simpl. tauto.
    + apply (H (copy_files os)). simpl. tauto.
    + apply (H (delete_files os)). simpl. tauto.
    + apply (H (create_folder os)). simpl. tauto.
  - unfold execute_command. rewrite V. cbn. lia.
Qed.

Lemma handlers_end_time
    (World : Type) (os : Sys.OS World) (t0 t1 : Z) (cmd : Command) (w : World) :
  forall handler,
    In handler [move_files os; copy_files os; delete_files os; create_folder os] ->
    let r := fst (handler t0 t1 cmd w) in
    (end_time r = 0%Z \/ end_time r = t1) /\
    (dry_run cmd = true -> success r = true -> end_time r = 0%Z) /\
    (dry_run cmd = false -> success r = true -> end_time r = t1).
Proof.
  intros handler [<-|[<-|[<-|[<-|[]]]]];
    unfold move_files, copy_files, delete_files, create_folder;
    run_handler; cbn; repeat split; intros; auto; discriminate.
Qed.

(** X14.  [end_time] is assigned only where a handler runs to its last
    line.  A successful dry run returns early and leaves it as in a fresh
    result (0), as does a run stopped by a safety check; a successful run
    that is no dry run records the clock. *)
Theorem end_time_only_at_end
    (World : Type) (os : Sys.OS World) (t0 t1 : Z) (cmd : Command) (w : World) :
  let r := fst (execute_command os t0 t1 cmd w) in
  (end_time r = 0%Z \/ end_time r = t1) /\
  (dry_run cmd = true -> success r = true -> end_time r = 0%Z) /\
  (dry_run cmd = false -> success r = true -> end_time r = t1).
Proof.
  cbv zeta. destruct (validate_command cmd) eqn:V.
  - pose proof (handlers_end_time World os t0 t1 cmd w) as H.
    destruct (execute_command_dispatch World os t0 t1 cmd w V)
      as [[_ ->]|[[_ ->]|[[_ ->]|[_ ->]]]].
    + apply (H (move_files os)). simpl. tauto.
    + apply (H (copy_files os)). simpl. tauto.
    + apply (H (delete_files os)). simpl. tauto.
    + apply (H (create_folder os)). simpl. tauto.
  - unfold execute_command. rewrite V. cbn.
    repeat split; intros; auto; discriminate.
Qed.

Lemma matching_empty (files : list Path.path) : matching "" files = files.
Proof.
  unfold matching. induction files as [|f files IH]; [reflexivity|].
  cbn [filter]. change (matches_pattern (Path.filename f) "") with true.
  cbv iota. f_equal. exact IH.
Qed.

Lemma handlers_empty_pattern
    (World : Type) (os : Sys.OS World) (t0 t1 : Z) (cmd : Command) (w : World) :
  pattern cmd = "" ->
  forall handler,
    In handler [move_files os; copy_files os; delete_files os; create_folder os] ->
    files_matched (fst (handler t0 t1 cmd w)) = files_scanned (fst (handler t0 t1 cmd w)).
Proof.
  intros Hp handler [<-|[<-|[<-|[<-|[]]]]];
    unfold move_files, copy_files, delete_files, create_folder;
    rewrite ?Hp; run_handler; cbn; rewrite ?matching_empty; reflexivity.
Qed.

(** X15.  The empty pattern selects everything: with [pattern] empty,
    every scanned file is matched ([files_matched = files_scanned]), so a
    delete command without a pattern removes all regular files the scan
    delivers. *)
Theorem empty_pattern_selects_all
    (World : Type) (os : Sys.OS World) (t0 t1 : Z) (cmd : Command) (w : World) :
  pattern cmd = "" ->
  (forall files, matching (pattern cmd) files = files) /\
  files_matched (fst (execute_command os t0 t1 cmd w))
  = files_scanned (fst (execute_command os t0 t1 cmd w)).
Proof.
  intros Hp. split; [intros files; rewrite Hp; apply matching_empty|].
  destruct (validate_command cmd) eqn:V.
  - pose proof (handlers_empty_pattern World os t0 t1 cmd w Hp) as H.
    destruct (execute_command_dispatch World os t0 t1 cmd w V)
      as [[_ ->]|[[_ ->]|[[_ ->]|[_ ->]]]].
    + apply (H (move_files os)). simpl. tauto.
    + apply (H (copy_files os)). simpl. tauto.
    + apply (H (delete_files os)). simpl. tauto.
    + apply (H (create_folder os)). simpl. tauto.
  - unfold execute_command. now rewrite V.
Qed.

Lemma empty_pattern_selects_all_witness :
  files_matched (fst (execute_command MemFS.os 100 200
                        (MemFS.command "delete" "" "/tmp/D" "" false) MemFS.sample))
  = 3%Z
  /\ map fst (snd (execute_command MemFS.os 100 200
                     (MemFS.command "delete" "" "/tmp/D" "" false) MemFS.sample))
     = ["/tmp"; "/tmp/D"; "/tmp/D/b.txt"; "/tmp/out"; "/home/other/private"].
Proof.
  split; [|reflexivity].
  exact (eq_trans
           (proj2 (empty_pattern_selects_all MemFS.World MemFS.os 100 200
                     (MemFS.command "delete" "" "/tmp/D" "" false) MemFS.sample eq_refl))
           eq_refl).
Defined.

(** ** main *)

Lemma execute_command_well_shaped
    (World : Type) (os : Sys.OS World) (t0 t1 : Z) (cmd : Command) (w : World) :
  well_shaped (fst (execute_command os t0 t1 cmd w)).
Proof.
  destruct (validate_command cmd) eqn:V.
  - destruct (handlers_well_shaped World os t0 t1 cmd w) as (Hm & Hc & Hd & Hf).
    destruct (execute_command_dispatch World os t0 t1 cmd w V)
      as [[_ ->]|[[_ ->]|[[_ ->]|[_ ->]]]]; assumption.
  - unfold execute_command. rewrite V. cbn. repeat split; discriminate.
Qed.

Lemma execute_command_dry_run_world
    (World : Type) (os : Sys.OS World) (t0 t1 : Z) (cmd : Command) (w : World) :
  dry_run cmd = true -> snd (execute_command os t0 t1 cmd w) = w.
Proof.
  intros Hdry. destruct (validate_command cmd) eqn:V.
  - pose proof (handlers_dry_run World os t0 t1 cmd w Hdry) as H.
    destruct (execute_command_dispatch World os t0 t1 cmd w V)
      as [[_ ->]|[[_ ->]|[[_ ->]|[_ ->]]]].
    + apply (H (move_files os)). simpl. tauto.
    + apply (H (copy_files os)). simpl. tauto.
    + apply (H (delete_files os)). simpl. tauto.
    + apply (H (create_folder os)). simpl. tauto.
  - unfold execute_command. now rewrite V.
Qed.

Lemma execute_command_empty_pattern
    (World : Type) (os : Sys.OS World) (t0 t1 : Z) (cmd : Command) (w : World) :
  pattern cmd = "" ->
  files_matched (fst (execute_command os t0 t1 cmd w))
  = files_scanned (fst (execute_command os t0 t1 cmd w)).
Proof.
  intros Hp. destruct (validate_command cmd) eqn:V.
  - pose proof (handlers_empty_pattern World os t0 t1 cmd w Hp) as H.
    destruct (execute_command_dispatch World os t0 t1 cmd w V)
      as [[_ ->]|[[_ ->]|[[_ ->]|[_ ->]]]].
    + apply (H (move_files os)). simpl. tauto.
    + apply (H (copy_files os)). simpl. tauto.
    + apply (H (delete_files os)). simpl. tauto.
    + apply (H (create_folder os)). simpl. tauto.
  - unfold execute_command. now rewrite V.
Qed.

Lemma execute_command_operation_action
    (World : Type) (os : Sys.OS World) (t0 t1 : Z) (cmd : Command) (w : World) :
  validate_command cmd = true ->
  operation (fst (execute_command os t0 t1 cmd w)) = action cmd.
Proof.
  intros V.
  destruct (execute_command_dispatch World os t0 t1 cmd w V)
    as [[Ea ->]|[[Ea ->]|[[Ea ->]|[Ea ->]]]]; rewrite Ea;
    unfold move_files, copy_files, delete_files, create_folder;
    run_handler; reflexivity.
Qed.

(** [main] either stops before the command runs (nothing printed,
    status 1, file system untouched), or it has decoded a valid command
    and run it: then it prints the result, unless the result cannot be
    dumped. *)
Lemma main_cases
    (World : Type) (os : Sys.OS World) (t0 t1 : Z) (parsed : option json) (w : World) :
  main os t0 t1 parsed w = (None, 1%Z, w)
  \/ exists j cmd,
       parsed = Some j /\ decoded j cmd /\ validate_command cmd = true /\
       ((dumps (output (fst (execute_command os t0 t1 cmd w))) = true /\
         main os t0 t1 parsed w
         = (Some (output (fst (execute_command os t0 t1 cmd w))),
            (if success (fst (execute_command os t0 t1 cmd w)) then 0%Z else 1%Z),
            snd (execute_command os t0 t1 cmd w)))
        \/ (dumps (output (fst (execute_command os t0 t1 cmd w))) = false /\
            main os t0 t1 parsed w = (None, 1%Z, snd (execute_command os t0 t1 cmd w)))).
Proof.
  unfold main. destruct parsed as [j|]; [|now left].
  destruct (string_member j "action") as [a|] eqn:Ea; [|now left].
  destruct (value_bool j "dry_run") as [d|] eqn:Ed; [|now left].
  destruct (value_bool j "force") as [f|] eqn:Ef; [|now left].
  destruct (value_bool j "recursive") as [r|] eqn:Er; [|now left].
  destruct (value_bool j "verbose") as [v|] eqn:Ev; [|now left].
  cbv zeta.
  match goal with |- context [validate_command ?c] => set (cmd := c) end.
  destruct (validate_command cmd) eqn:V; cbn [negb]; [|now left].
  right. exists j, cmd. split; [reflexivity|]. split.
  { unfold decoded. subst cmd. cbn. repeat split; assumption. }
  split; [exact V|].
  destruct (execute_command os t0 t1 cmd w) as [result w']. cbn [fst snd].
  destruct (dumps (output result)); [left|right]; split; reflexivity.
Qed.

Lemma printed_success (r : FileOpResult) :
  printed (Some (output r)) "success" = Some (JBool (success r)).
Proof. reflexivity. Qed.

(** X16.  The exit status of [main] is 0 or 1, and it is 0 exactly when
    an object was printed whose [success] member is [true].  When nothing
    is printed the status is 1, and the file system is as it was unless a
    valid command ran and its result could not be dumped. *)
Theorem main_exit_status
    (World : Type) (os : Sys.OS World) (t0 t1 : Z) (parsed : option json) (w : World) :
  let out := fst (fst (main os t0 t1 parsed w)) in
  let code := snd (fst (main os t0 t1 parsed w)) in
  (code = 0%Z \/ code = 1%Z) /\
  (code = 0%Z <-> printed out "success" = Some (JBool true)) /\
  (out = None ->
     code = 1%Z /\
     (snd (main os t0 t1 parsed w) = w
      \/ exists j cmd,
           parsed = Some j /\ decoded j cmd /\ validate_command cmd = true /\
           dumps (output (fst (execute_command os t0 t1 cmd w))) = false /\
           snd (main os t0 t1 parsed w) = snd (execute_command os t0 t1 cmd w))).
Proof.
  cbv zeta.
  destruct (main_cases World os t0 t1 parsed w)
    as [E|(j & cmd & Ej & D & V & [[Hd E]|[Hd E]])]; rewrite E; cbn [fst snd].
  - split; [now right|]. split; [split; discriminate|]. intros _. split; [reflexivity|now left].
  - rewrite printed_success.
    destruct (success (fst (execute_command os t0 t1 cmd w)));
      (split; [tauto|]); (split; [split; intros H; try discriminate H; reflexivity|]);
      intros H; discriminate H.
  - split; [now right|]. split; [split; discriminate|]. intros _. split; [reflexivity|].
    right. exists j, cmd.
    split; [exact Ej|]. split; [exact D|]. split; [exact V|]. split; [exact Hd|reflexivity].
Qed.

Lemma value_bool_member (members : list (string * json)) (key : string) (v : json) (b : bool) :
  Json.find key members = Some v ->
  value_bool (JObject members) key = Sys.Returns b -> v = JBool b.
Proof.
  intros Hf. unfold value_bool. rewrite Hf.
  destruct v; intros H; try discriminate H. now injection H as ->.
Qed.

(** X17.  A flag ([dry_run], [force], [recursive], [verbose]) that is
    present but is no boolean - a string, a number, [null] - makes [main]
    stop before validation: nothing is printed, the status is 1 and the
    file system is untouched. *)
Theorem main_rejects_non_boolean_flag
    (World : Type) (os : Sys.OS World) (t0 t1 : Z)
    (members : list (string * json)) (key : string) (v : json) (w : World) :
  In key ["dry_run"; "force"; "recursive"; "verbose"] ->
  Json.find key members = Some v ->
  (forall b, v <> JBool b) ->
  main os t0 t1 (Some (JObject members)) w = (None, 1%Z, w).
Proof.
  intros Hkey Hf Hv.
  destruct (main_cases World os t0 t1 (Some (JObject members)) w)
    as [E|(j & cmd & Ej & D & _ & _)]; [exact E|exfalso].
  injection Ej as <-.
  destruct D as (_ & _ & _ & _ & Hd & Hfo & Hr & Hve).
  destruct Hkey as [<-|[<-|[<-|[<-|[]]]]].
  - exact (Hv _ (value_bool_member _ _ _ _ Hf Hd)).
  - exact (Hv _ (value_bool_member _ _ _ _ Hf Hfo)).
  - exact (Hv _ (value_bool_member _ _ _ _ Hf Hr)).
  - exact (Hv _ (value_bool_member _ _ _ _ Hf Hve)).
Qed.

Lemma main_rejects_non_boolean_flag_witness :
  main MemFS.os 100 200
    (Some (JObject [("action", JString "delete"); ("source", JString "/tmp/D");
                    ("dry_run", JString "true")]))
    MemFS.sample
  = (None, 1%Z, MemFS.sample).
Proof.
  apply (main_rejects_non_boolean_flag MemFS.World MemFS.os 100 200 _ "dry_run"
           (JString "true")).
  - simpl. tauto.
  - reflexivity.
  - intros b. discriminate.
Defined.

(** X18.  When the [dry_run] member is present and is anything but the
    boolean [false], [main] leaves the file system as it was: [true] is a
    dry run, any other value is rejected. *)
Theorem main_dry_run_member
    (World : Type) (os : Sys.OS World) (t0 t1 : Z)
    (members : list (string * json)) (v : json) (w : World) :
  Json.find "dry_run" members = Some v ->
  v <> JBool false ->
  snd (main os t0 t1 (Some (JObject members)) w) = w.
Proof.
  intros Hf Hv.
  destruct (main_cases World os t0 t1 (Some (JObject members)) w)
    as [E|(j & cmd & Ej & D & _ & [[_ E]|[_ E]])]; rewrite E; cbn [snd];
    [reflexivity| |];
    injection Ej as <-;
    destruct D as (_ & _ & _ & _ & Hd & _);
    pose proof (value_bool_member _ _ _ _ Hf Hd) as Ev;
    apply execute_command_dry_run_world;
    (destruct (dry_run cmd); [reflexivity|contradiction]).
Qed.

Lemma main_dry_run_member_witness :
  snd (main MemFS.os 100 200
         (Some (JObject [("action", JString "delete"); ("source", JString "/tmp/D");
                         ("dry_run", JBool true)]))
         MemFS.sample)
  = MemFS.sample.
Proof.
  apply (main_dry_run_member MemFS.World MemFS.os 100 200 _ (JBool true)).
  - reflexivity.
  - discriminate.
Defined.

Lemma printed_error_message (r : FileOpResult) :
  printed (Some (output r)) "error_message"
  = if negb (success r) && negb (String.eqb (error_message r) "")
    then Some (JString (error_message r)) else None.
Proof.
  unfold printed, output. cbn [List.app Json.find String.eqb Ascii.eqb Bool.eqb].
  destruct (errors r); cbn [List.app Json.find String.eqb Ascii.eqb Bool.eqb];
    destruct (negb (success r) && negb (String.eqb (error_message r) "")); reflexivity.
Qed.

Lemma printed_errors (r : FileOpResult) :
  printed (Some (output r)) "errors"
  = match errors r with
    | [] => None
    | _ :: _ => Some (JArray (map JString (errors r)))
    end.
Proof.
  unfold printed, output. cbn [List.app Json.find String.eqb Ascii.eqb Bool.eqb].
  destruct (errors r); cbn [List.app Json.find String.eqb Ascii.eqb Bool.eqb];
    [|reflexivity].
  destruct (negb (success r) && negb (String.eqb (error_message r) "")); reflexivity.
Qed.

(** X19.  In what [main] prints, the member [error_message] is there
    exactly when [success] is [false], and the member [errors] only when
    [success] is [true]: no printed object carries both. *)
Theorem main_error_members
    (World : Type) (os : Sys.OS World) (t0 t1 : Z) (parsed : option json) (w : World) :
  let out := fst (fst (main os t0 t1 parsed w)) in
  (printed out "error_message" <> None <-> printed out "success" = Some (JBool false)) /\
  (printed out "errors" <> None ->
     printed out "success" = Some (JBool true) /\ printed out "error_message" = None).
Proof.
  cbv zeta.
  assert (Hnone : (printed None "error_message" <> None <->
                   printed None "success" = Some (JBool false)) /\
                  (printed None "errors" <> None ->
                   printed None "success" = Some (JBool true)
                   /\ printed None "error_message" = None)).
  { split; [split; [intros H; now contradiction H|discriminate]|].
    intros H. now contradiction H. }
  destruct (main_cases World os t0 t1 parsed w)
    as [E|(j & cmd & _ & _ & _ & [[_ E]|[_ E]])]; rewrite E; cbn [fst snd];
    [exact Hnone| |exact Hnone].
  pose proof (execute_command_well_shaped World os t0 t1 cmd w) as Hs.
  unfold well_shaped in Hs.
  rewrite printed_success, printed_error_message, printed_errors.
  destruct (success (fst (execute_command os t0 t1 cmd w))); cbn [negb andb].
  + split; [split; [intros H; now contradiction H|discriminate]|].
    intros _. split; reflexivity.
  + destruct Hs as (Hm & _ & He & _). rewrite He.
    destruct (String.eqb_spec (error_message (fst (execute_command os t0 t1 cmd w))) "");
      [contradiction|]. cbn [negb].
    split; [split; [reflexivity|discriminate]|].
    intros H. now contradiction H.
Qed.

Lemma printed_counters (r : FileOpResult) :
  printed (Some (output r)) "files_scanned" = Some (JInt (files_scanned r)) /\
  printed (Some (output r)) "files_matched" = Some (JInt (files_matched r)) /\
  printed (Some (output r)) "operation" = Some (JString (operation r)).
Proof. repeat split; reflexivity. Qed.

(** X20.  A [pattern] member that is missing or is no string counts as
    the empty pattern: whatever [main] then prints has [files_matched]
    equal to [files_scanned] - every scanned file is selected. *)
Theorem main_missing_pattern_selects_all
    (World : Type) (os : Sys.OS World) (t0 t1 : Z) (j : json) (w : World) :
  string_member j "pattern" = None ->
  let out := fst (fst (main os t0 t1 (Some j) w)) in
  out <> None ->
  exists n, printed out "files_scanned" = Some (JInt n)
            /\ printed out "files_matched" = Some (JInt n).
Proof.
  intros Hp. cbv zeta.
  destruct (main_cases World os t0 t1 (Some j) w)
    as [E|(j' & cmd & Ej & D & _ & [[_ E]|[_ E]])];
    rewrite E; cbn [fst snd];
    [intros H; now contradiction H|intros _|intros H; now contradiction H].
  injection Ej as <-. destruct D as (_ & Hpat & _).
  unfold string_or_empty in Hpat. rewrite Hp in Hpat.
  destruct (printed_counters (fst (execute_command os t0 t1 cmd w))) as (Hs & Hm & _).
  exists (files_scanned (fst (execute_command os t0 t1 cmd w))).
  split; [exact Hs|]. rewrite Hm.
  now rewrite (execute_command_empty_pattern World os t0 t1 cmd w Hpat).
Qed.

Lemma main_missing_pattern_selects_all_witness :
  exists n,
    printed (fst (fst (main MemFS.os 100 200
                         (Some (JObject [("action", JString "delete");
                                         ("source", JString "/tmp/D");
                                         ("pattern", JInt 5);
                                         ("dry_run", JBool true)]))
                         MemFS.sample))) "files_scanned" = Some (JInt n)
    /\ printed (fst (fst (main MemFS.os 100 200
                         (Some (JObject [("action", JString "delete");
                                         ("source", JString "/tmp/D");
                                         ("pattern", JInt 5);
                                         ("dry_run", JBool true)]))
                         MemFS.sample))) "files_matched" = Some (JInt n).
Proof.
  apply (main_missing_pattern_selects_all MemFS.World MemFS.os 100 200
           (JObject [("action", JString "delete"); ("source", JString "/tmp/D");
                     ("pattern", JInt 5); ("dry_run", JBool true)]) MemFS.sample).
  - reflexivity.
  - vm_compute. discriminate.
Defined.

(** X21.  Whatever [main] prints comes from a handler: the [operation]
    member is the [action] of the input, one of the four known actions.
    The "Invalid command" result of [execute_command] is never printed,
    [main] having validated the command itself. *)
Theorem main_prints_known_operation
    (World : Type) (os : Sys.OS World) (t0 t1 : Z) (parsed : option json) (w : World) :
  let out := fst (fst (main os t0 t1 parsed w)) in
  out <> None ->
  exists j a,
    parsed = Some j /\ string_member j "action" = Some a /\
    In a ["move"; "copy"; "delete"; "create_folder"] /\
    printed out "operation" = Some (JString a) /\
    printed out "error_message" <> Some (JString "Invalid command").
Proof.
  cbv zeta.
  destruct (main_cases World os t0 t1 parsed w)
    as [E|(j & cmd & Ej & D & V & [[_ E]|[_ E]])];
    rewrite E; cbn [fst snd];
    [intros H; now contradiction H|intros _|intros H; now contradiction H].
  destruct D as (Ha & _).
  exists j, (action cmd). split; [exact Ej|]. split; [exact Ha|].
  destruct (printed_counters (fst (execute_command os t0 t1 cmd w))) as (_ & _ & Ho).
  rewrite Ho, (execute_command_operation_action World os t0 t1 cmd w V).
  split; [|split; [reflexivity|]].
  - pose proof V as W. apply validate_command_well_formed in W.
    destruct W as [[[Wa|Wa] _]|[[Wa _]|[Wa _]]]; rewrite Wa; simpl; tauto.
  - rewrite printed_error_message.
    destruct (negb (success (fst (execute_command os t0 t1 cmd w)))
              && negb (String.eqb (error_message (fst (execute_command os t0 t1 cmd w))) ""));
      [|discriminate].
    intros H. injection H as H.
    unfold execute_command in H. rewrite V in H. cbn [negb] in H.
    destruct (execute_command_dispatch World os t0 t1 cmd w V)
      as [[Ea _]|[[Ea _]|[[Ea _]|[Ea _]]]]; rewrite Ea in H; cbn [String.eqb Ascii.eqb Bool.eqb] in H;
      revert H;
      unfold move_files, copy_files, delete_files, create_folder;
      run_handler; cbn; discriminate.
Qed.

Lemma main_prints_known_operation_witness :
  printed (fst (fst (main MemFS.os 100 200
                       (Some (JObject [("action", JString "move");
                                       ("pattern", JString "*.txt");
                                       ("source", JString "/tmp/D");
                                       ("destination", JString "/usr/local")]))
                       MemFS.sample))) "operation"
  = Some (JString "move").
Proof.
  destruct (main_prints_known_operation MemFS.World MemFS.os 100 200
              (Some (JObject [("action", JString "move"); ("pattern", JString "*.txt");
                              ("source", JString "/tmp/D");
                              ("destination", JString "/usr/local")]))
              MemFS.sample ltac:(vm_compute; discriminate))
    as (j & a & Ej & Ha & _ & H & _).
  injection Ej as <-. vm_compute in Ha. injection Ha as <-. exact H.
Defined.

(** What [main] does with an object that decodes to a valid command. *)
Lemma main_decoded
    (World : Type) (os : Sys.OS World) (t0 t1 : Z) (j : json) (cmd : Command) (w : World) :
  decoded j cmd ->
  validate_command cmd = true ->
  main os t0 t1 (Some j) w
  = if dumps (output (fst (execute_command os t0 t1 cmd w)))
    then (Some (output (fst (execute_command os t0 t1 cmd w))),
          (if success (fst (execute_command os t0 t1 cmd w)) then 0%Z else 1%Z),
          snd (execute_command os t0 t1 cmd w))
    else (None, 1%Z, snd (execute_command os t0 t1 cmd w)).
Proof.
  intros (A & P & S & Dn & Y & F & R & Ve) V. unfold main.
  rewrite A, Y, F, R, Ve. cbv zeta.
  assert (Ec : {| action := action cmd; pattern := string_or_empty j "pattern";
                  source := string_or_empty j "source";
                  destination := string_or_empty j "destination";
                  dry_run := dry_run cmd; force := force cmd;
                  recursive := recursive cmd; verbose := verbose cmd |} = cmd).
  { destruct cmd. cbn in *. congruence. }
  rewrite Ec, V. cbn [negb].
  destruct (execute_command os t0 t1 cmd w) as [result w']. reflexivity.
Qed.

Lemma dumps_output_errors (r : FileOpResult) (e : string) :
  In e (errors r) -> valid_utf8 e = false -> dumps (output r) = false.
Proof.
  intros Hin Hbad.
  assert (H : forallb dumps (map JString (errors r)) = false).
  { induction (errors r) as [|x xs IH]; [destruct Hin|].
    cbn [map forallb dumps]. destruct Hin as [->|Hin].
    - now rewrite Hbad.
    - rewrite (IH Hin). apply andb_false_r. }
  unfold output. cbn [dumps]. rewrite !forallb_app.
  apply andb_false_iff. right. apply andb_false_iff. left.
  destruct (errors r) as [|e0 l]; [destruct Hin|].
  cbn [forallb]. cbn [dumps]. rewrite H. cbn. now rewrite andb_false_r.
Qed.

(** X25.  When an entry of [errors] is not well-formed UTF-8 - a failed
    file whose name is in another encoding - the result cannot be dumped:
    [main] prints nothing and exits with 1, although the command has run
    and the files that did not fail have been moved, copied or deleted. *)
Theorem main_silent_on_undumpable_result
    (World : Type) (os : Sys.OS World) (t0 t1 : Z) (j : json) (cmd : Command)
    (w : World) (e : string) :
  decoded j cmd ->
  validate_command cmd = true ->
  In e (errors (fst (execute_command os t0 t1 cmd w))) ->
  valid_utf8 e = false ->
  main os t0 t1 (Some j) w = (None, 1%Z, snd (execute_command os t0 t1 cmd w)).
Proof.
  intros D V Hin Hbad.
  rewrite (main_decoded World os t0 t1 j cmd w D V).
  now rewrite (dumps_output_errors _ e Hin Hbad).
Qed.

(** [a.txt] is moved, the locked [caf\233.txt] fails, and nothing is
    printed. *)
Lemma main_silent_on_undumpable_result_witness :
  main MemFS.os 100 200
    (Some (JObject [("action", JString "move"); ("pattern", JString "*.txt");
                    ("source", JString "/tmp/D"); ("destination", JString "/tmp/out")]))
    latin1_world
  = (None, 1%Z,
     [("/tmp", MemFS.Dir); ("/tmp/D", MemFS.Dir);
      ("/tmp/D/caf" ++ String (ascii_of_nat 233) ".txt", MemFS.File true);
      ("/tmp/out", MemFS.Dir); ("/tmp/out/a.txt", MemFS.File false)]).
Proof.
  refine (eq_trans
    (main_silent_on_undumpable_result MemFS.World MemFS.os 100 200
       (JObject [("action", JString "move"); ("pattern", JString "*.txt");
                 ("source", JString "/tmp/D"); ("destination", JString "/tmp/out")])
       (MemFS.command "move" "*.txt" "/tmp/D" "/tmp/out" false) latin1_world
       ("Failed to move /tmp/D/caf" ++ String (ascii_of_nat 233)
          ".txt: filesystem error: cannot rename: Operation not permitted")
       _ eq_refl _ eq_refl) eq_refl).
  - unfold decoded. repeat split; reflexivity.
  - vm_compute. left. reflexivity.
Defined.

(** ** Scans *)



(** ** Where moved and copied files go *)

Lemma filename_plain (n : string) :
  Str.contains_char "/" n = false -> Path.filename n = n.
Proof. intros H. destruct n as [|c n]; [reflexivity|]. cbn [Path.filename]. now rewrite H. Qed.

Lemma filename_after_sep (p n : string) :
  Str.contains_char "/" n = false -> Path.filename (p ++ String "/" n) = n.
Proof.
  intros H. induction p as [|c p IH].
  - change ("" ++ String "/" n) with (String "/" n). cbn [Path.filename].
    change (Str.contains_char "/" (String "/" n)) with true. cbv iota.
    now apply filename_plain.
  - change (String c p ++ String "/" n) with (String c (p ++ String "/" n)).
    cbn [Path.filename].
    assert (Hc : Str.contains_char "/" (String c (p ++ String "/" n)) = true).
    { cbn [Str.contains_char]. rewrite contains_char_app. cbn [Str.contains_char].
      change (Ascii.eqb "/" "/") with true. cbn [orb].
      now rewrite orb_true_r, orb_true_r. }
    rewrite Hc. exact IH.
Qed.

Lemma filename_empty (p : string) :
  Path.filename p = "" -> p = "" \/ exists q, p = q ++ "/".
Proof.
  induction p as [|c p IH]; [now left|].
  cbn [Path.filename].
  destruct (Str.contains_char "/" (String c p)) eqn:E; [|discriminate].
  intros H. right. destruct (IH H) as [->|[q ->]].
  - exists "". cbn [Str.contains_char] in E. rewrite orb_false_r in E.
    apply Ascii.eqb_eq in E. now subst c.
  - now exists (String c q).
Qed.

(** X23.  A moved or copied file lands under the name it had: the target
    [dest_path / file.filename()] has the filename of the source file,
    whatever directory the file came from - under a recursive scan the
    files of all subdirectories land in one directory, files of the same
    name on the same target. *)
Theorem target_keeps_filename (dest_path file : Path.path) :
  Path.filename (Path.append dest_path (Path.filename file)) = Path.filename file /\
  (forall file', Path.filename file' = Path.filename file ->
     Path.append dest_path (Path.filename file')
     = Path.append dest_path (Path.filename file)).
Proof.
  split; [|intros file' E; now rewrite E].
  pose proof (filename_no_sep file) as Hn.
  assert (Hroot : Path.has_root_directory (Path.filename file) = false).
  { destruct (Path.filename file) as [|c n]; [reflexivity|].
    cbn [Str.contains_char] in Hn. apply orb_false_iff in Hn as [Hc _]. exact Hc. }
  unfold Path.append. rewrite Hroot. unfold Path.has_filename.
  destruct (Path.filename dest_path) eqn:Ed.
  - destruct (filename_empty dest_path Ed) as [->|[q ->]].
    + now apply filename_plain.
    + rewrite string_app_assoc. now apply filename_after_sep.
  - change ("/" ++ Path.filename file) with (String "/" (Path.filename file)).
    now apply filename_after_sep.
Qed.

(** ** A star inside a pattern *)

Lemma replace_double_star_inner (s t : string) :
  has_wildcard s = false -> has_wildcard t = false ->
  replace_double_star (s ++ String "*" t) = s ++ String "*" t.
Proof.
  intros Hs Ht. induction s as [|c s IH].
  - now apply replace_double_star_prefix.
  - apply has_wildcard_cons in Hs as (Hc & _ & Hs).
    change (String c s ++ String "*" t) with (String c (s ++ String "*" t)).
    cbn [replace_double_star]. rewrite Hc. cbn [andb].
    rewrite (IH Hs). destruct s; reflexivity.
Qed.

(** X24.  A single [*] between two texts without wildcards stands for
    any run of characters that holds no line terminator: the filename must
    begin with the first text and end with the second, letter case apart,
    with such a run (possibly empty) between them. *)
Theorem glob_inner_star (f s t : string) :
  has_wildcard s = false -> has_wildcard t = false ->
  (matches_glob_pattern f (s ++ String "*" t) = true <->
   exists pre mid suf,
     f = pre ++ mid ++ suf /\ Str.lower pre = Str.lower s /\
     single_line mid = true /\ Str.lower suf = Str.lower t).
Proof.
  intros Hs Ht.
  rewrite matches_glob_pattern_regex, (replace_double_star_inner _ _ Hs Ht).
  rewrite pieces_app, (pieces_literal _ Hs). cbn [pieces].
  rewrite (pieces_literal _ Ht).
  change (piece_of "*") with (Regex.Star Regex.Dot).
  rewrite regex_match_literal_app. split.
  - intros (pre & rest & -> & Hp & H).
    cbn [Regex.regex_match] in H. apply star_dot_iff in H as (mid & suf & -> & Hm & H).
    apply regex_match_literal in H. now exists pre, mid, suf.
  - intros (pre & mid & suf & -> & Hp & Hm & Hsuf).
    exists pre, (mid ++ suf). repeat split; [exact Hp|].
    cbn [Regex.regex_match]. apply star_dot_iff.
    exists mid, suf. repeat split; [exact Hm|]. now apply regex_match_literal.
Qed.

Lemma glob_inner_star_witness :
  matches_glob_pattern "Report-2024.PDF" ("report" ++ String "*" ".pdf") = true.
Proof.
  apply (proj2 (glob_inner_star "Report-2024.PDF" "report" ".pdf" eq_refl eq_refl)).
  exists "Report", "-2024", ".PDF". repeat split; reflexivity.
Defined.
